(** * MeetWrapper: the room tracker and icon mirror of StreamDeck-Meet

    A shallow embedding of [src/MeetWrapper.js].  The class reads the live
    page through [document.querySelector], talks to the StreamDeck and to the
    optional Hue helper through a handful of calls, and keeps five private
    fields.  Reads of the page, the device and the Hue helper are taken from
    an environment [Env] (what those collaborators answer at the moment a
    handler runs); calls made on them are recorded in a trace of [Effect]s;
    the private fields and the observers registered with the host runtime
    live in the [MeetWrapper] record that every method threads.  A method
    either completes normally or throws, as JavaScript does when a member of
    [null] is used. *)

From Stdlib Require Import String ZArith List Bool Arith Lia.
Import ListNotations.

Local Open Scope string_scope.
Local Open Scope list_scope.

(** ** The page *)

(** An element as the class uses it: identity of the node, attribute reads
    ([getAttribute], [dataset]), [classList], [firstChild] and a scoped
    [querySelector].  The containers whose [firstChild] is read hold the
    button element itself, so the child is an element too.  A container
    whose first child is a text or comment node is outside these pages:
    there the source's [click()] on the child throws and the read of its
    [dataset] rejects, and nothing below speaks of that case. *)
#[local] Set Warnings "-register-all".
Inductive Element : Type := mkElement {
  nodeId : nat;
  getAttribute : string -> option string;
  classList : list string;
  firstChild : option Element;
  elemQuerySelector : string -> option Element
}.

#[local] Set Warnings "+register-all".

(** [document]: what [querySelector] answers for a selector, and [body]. *)
Record Document : Type := mkDocument {
  querySelector : string -> option Element;
  body : option Element
}.

(** [elem.dataset.isMuted] reads the attribute [data-is-muted]. *)
Definition dataset_isMuted (e : Element) : option string :=
  getAttribute e "data-is-muted".

(** [elem.classList.contains(c)]. *)
Definition classList_contains (e : Element) (c : string) : bool :=
  existsb (String.eqb c) (classList e).

(** [v == 'lit'] for [v] a string, [null] or [undefined]. *)
Definition looseEq (v : option string) (lit : string) : bool :=
  match v with
  | Some s => String.eqb s lit
  | None => false
  end.

(** Truthiness of an object reference or [null]. *)
Definition truthy {A : Type} (o : option A) : bool :=
  match o with
  | Some _ => true
  | None => false
  end.

(** The double-quote character, for the two selectors that carry one. *)
Definition dquote : string :=
  String (Ascii.Ascii false true false false false true false false) EmptyString.

(** ** The collaborators *)

Record StreamDeck : Type := mkStreamDeck {
  isConnected : bool;
  buttonNameToId : string -> Z
}.

Record HueHelper : Type := mkHueHelper {
  hueAuto : bool
}.

(** Everything a handler reads from outside the instance while it runs: the
    page and its path, the StreamDeck (whether it is connected, and its
    layout), the Hue helper handed to the constructor, if any, with its
    [auto] flag as it reads at that moment, and [chrome.runtime.getURL]. *)
Record Env : Type := mkEnv {
  document : Document;
  pathname : string;
  streamDeck : StreamDeck;
  hueLights : option HueHelper;
  getURL : string -> string
}.

(** ** Rooms, effects and observers *)

Inductive Room : Type := lobby | greenRoom | meeting | exitHall.

Definition Room_eqb (a b : Room) : bool :=
  match a, b with
  | lobby, lobby | greenRoom, greenRoom
  | meeting, meeting | exitHall, exitHall => true
  | _, _ => false
  end.

(** [this.#currentRoom === this.#ROOM_NAMES.r]; the field starts undefined. *)
Definition roomIs (cur : option Room) (r : Room) : bool :=
  match cur with
  | Some c => Room_eqb c r
  | None => false
  end.

(** Calls that leave the instance. *)
Inductive Effect : Type :=
| ConsoleLog (room : Room)
| ClearAllButtons
| FillURL (buttonId : Z) (url : string) (isURL : bool)
| HueOn (on : bool)
| Click (node : nat).

(** The [MutationObserver]s the class creates, named after the constants
    that hold them in the source. *)
Inductive Observer : Type :=
| bodyObserver | muteObserver | statusBarObserver | selectedPanelObserver
| sidePanelObserver | handObserver | ccObserver.

Definition Observer_eqb (a b : Observer) : bool :=
  match a, b with
  | bodyObserver, bodyObserver | muteObserver, muteObserver
  | statusBarObserver, statusBarObserver
  | selectedPanelObserver, selectedPanelObserver
  | sidePanelObserver, sidePanelObserver
  | handObserver, handObserver | ccObserver, ccObserver => true
  | _, _ => false
  end.

(** The options object handed to [observe]. *)
Record ObserveOptions : Type := mkOptions {
  attributes : bool;
  childList : bool;
  subtree : bool;
  attributeFilter : list string
}.

(** One successful [observer.observe(target, options)]. *)
Record Observation : Type := mkObservation {
  observer : Observer;
  target : nat;
  options : ObserveOptions
}.

(** ** The instance *)

Inductive Error : Type :=
| TypeError (what : string).

(** A promise as returned by an [async] method. *)
Inductive Promise : Type :=
| Fulfilled
| Rejected (e : Error).

(** The private fields of the class, followed by what the host runtime holds
    for the instance: the [keydown] listeners added to the StreamDeck, the
    observations in force, and the promises that suspended [muteObserver]
    callbacks wait on at their first [await], oldest first. *)
Record MeetWrapper : Type := mkMeetWrapper {
  currentRoom : option Room;
  isPresenting : bool;
  isSidePanelVisible : bool;
  ccButtonReady : bool;
  handButtonReady : bool;
  keydownListeners : nat;
  observing : list Observation;
  awaiting : list Promise
}.

(** The field initialisers of the class body. *)
Definition fresh : MeetWrapper :=
  mkMeetWrapper None false false false false 0 [] [].

Definition set_currentRoom (r : Room) (s : MeetWrapper) : MeetWrapper :=
  mkMeetWrapper (Some r) (isPresenting s) (isSidePanelVisible s)
    (ccButtonReady s) (handButtonReady s) (keydownListeners s)
    (observing s) (awaiting s).

Definition set_isPresenting (b : bool) (s : MeetWrapper) : MeetWrapper :=
  mkMeetWrapper (currentRoom s) b (isSidePanelVisible s)
    (ccButtonReady s) (handButtonReady s) (keydownListeners s)
    (observing s) (awaiting s).

Definition set_isSidePanelVisible (b : bool) (s : MeetWrapper) : MeetWrapper :=
  mkMeetWrapper (currentRoom s) (isPresenting s) b
    (ccButtonReady s) (handButtonReady s) (keydownListeners s)
    (observing s) (awaiting s).

Definition set_ccButtonReady (b : bool) (s : MeetWrapper) : MeetWrapper :=
  mkMeetWrapper (currentRoom s) (isPresenting s) (isSidePanelVisible s)
    b (handButtonReady s) (keydownListeners s)
    (observing s) (awaiting s).

Definition set_handButtonReady (b : bool) (s : MeetWrapper) : MeetWrapper :=
  mkMeetWrapper (currentRoom s) (isPresenting s) (isSidePanelVisible s)
    (ccButtonReady s) b (keydownListeners s)
    (observing s) (awaiting s).

Definition add_keydownListener (s : MeetWrapper) : MeetWrapper :=
  mkMeetWrapper (currentRoom s) (isPresenting s) (isSidePanelVisible s)
    (ccButtonReady s) (handButtonReady s) (S (keydownListeners s))
    (observing s) (awaiting s).

Definition add_observation (o : Observation) (s : MeetWrapper) : MeetWrapper :=
  mkMeetWrapper (currentRoom s) (isPresenting s) (isSidePanelVisible s)
    (ccButtonReady s) (handButtonReady s) (keydownListeners s)
    (observing s ++ [o]) (awaiting s).

Definition set_awaiting (ps : list Promise) (s : MeetWrapper) : MeetWrapper :=
  mkMeetWrapper (currentRoom s) (isPresenting s) (isSidePanelVisible s)
    (ccButtonReady s) (handButtonReady s) (keydownListeners s)
    (observing s) ps.

(** ** Running a method *)

Inductive Completion (A : Type) : Type :=
| Normal (a : A)
| Throw (e : Error).
Arguments Normal {A} a.
Arguments Throw {A} e.

(** What one run of a method leaves behind: how it completed, the instance
    afterwards, and the calls it made, oldest first. *)
Record Run (A : Type) : Type := mkRun {
  completion : Completion A;
  after : MeetWrapper;
  calls : list Effect
}.
Arguments mkRun {A} _ _ _.
Arguments completion {A} _.
Arguments after {A} _.
Arguments calls {A} _.

Definition M (A : Type) : Type := MeetWrapper -> Run A.

Definition ret {A : Type} (a : A) : M A :=
  fun s => mkRun (Normal a) s [].

Definition bind {A B : Type} (m : M A) (f : A -> M B) : M B :=
  fun s =>
    let r := m s in
    match completion r with
    | Normal a =>
        let r' := f a (after r) in
        mkRun (completion r') (after r') (calls r ++ calls r')
    | Throw e => mkRun (Throw e) (after r) (calls r)
    end.

Definition throw {A : Type} (e : Error) : M A :=
  fun s => mkRun (Throw e) s [].

Definition emit (e : Effect) : M unit :=
  fun s => mkRun (Normal tt) s [e].

Definition get : M MeetWrapper :=
  fun s => mkRun (Normal s) s [].

Definition modify (f : MeetWrapper -> MeetWrapper) : M unit :=
  fun s => mkRun (Normal tt) (f s) [].

Notation "x <- m ;; k" := (bind m (fun x => k))
  (at level 61, m at next level, right associativity).
Notation "m ;; k" := (bind m (fun _ => k))
  (at level 61, right associativity).

(** Use of a member of [o]: a [TypeError] when [o] is [null]. *)
Definition member {A : Type} (o : option A) (what : string) : M A :=
  match o with
  | Some a => ret a
  | None => throw (TypeError what)
  end.

(** Calling an [async] method whose body holds no [await]: the body runs to
    its end at the call, and an exception in it rejects the promise instead
    of reaching the caller. *)
Definition async (m : M unit) : M Promise :=
  fun s =>
    let r := m s in
    match completion r with
    | Normal _ => mkRun (Normal Fulfilled) (after r) (calls r)
    | Throw e => mkRun (Normal (Rejected e)) (after r) (calls r)
    end.

(** [elem.click()]. *)
Definition click (e : Element) : M unit := emit (Click (nodeId e)).

(** [obs.observe(target, options)]; the host throws a [TypeError] when the
    target is not a node. *)
Definition observe (obs : Observer) (tgt : option Element)
    (opts : ObserveOptions) : M unit :=
  e <- member tgt "observe: parameter 1 is not of type Node" ;;
  modify (add_observation (mkObservation obs (nodeId e) opts)).

(** ** The methods of the class *)

Section Methods.

Variable env : Env.

Let doc : Document := document env.
Let deck : StreamDeck := streamDeck env.

(** *** Drawing icons on the StreamDeck buttons *)

Definition drawButton (iconName : string) : M unit :=
  if negb (isConnected deck) then ret tt
  else
    let buttonId := buttonNameToId deck iconName in
    if (buttonId <? 0)%Z then ret tt
    else
      let iconURL := getURL env ("ico-svg/" ++ iconName ++ ".svg") in
      emit (FillURL buttonId iconURL true).

Definition resetButtons : M unit :=
  if negb (isConnected deck) then ret tt
  else emit ClearAllButtons.

Definition drawHueButtons : M unit :=
  if negb (isConnected deck) then ret tt
  else if negb (truthy (hueLights env)) then ret tt
  else
    drawButton "light-on" ;;
    drawButton "light-off".

(** [this.#hueLights.on(b)]. *)
Definition hueLights_on (b : bool) : M unit :=
  member (hueLights env) "hueLights is undefined" ;;
  emit (HueOn b).

(** [if (this.#hueLights?.auto) this.#hueLights.on(false)], the tail of
    every room entry. *)
Definition autoLightsOff : M unit :=
  match hueLights env with
  | Some h => if hueAuto h then hueLights_on false else ret tt
  | None => ret tt
  end.

(** *** Getting Meet UI elements *)

Definition getStatusBar : option Element :=
  querySelector doc "[jsname=EaZ7Cc]".

Definition getMicButton : option Element :=
  match querySelector doc "[jsname=Dg9Wp]" with
  | Some c => firstChild c
  | None => None
  end.

Definition getCamButton : option Element :=
  match querySelector doc "[jsname=R3GXJb]" with
  | Some c => firstChild c
  | None => None
  end.

Definition getHandButton : option Element :=
  querySelector doc ".p2SYhf".

Definition getCCButton : option Element :=
  querySelector doc ".Q8K3Le".

Definition getStopPresentingButton : option Element :=
  querySelector doc "[jsname=PTpBtc]".

(** *** Checking the state of the meeting and updating buttons *)

Definition updateIsPresenting : M unit :=
  let newVal := truthy getStopPresentingButton in
  s <- get ;;
  if Bool.eqb (isPresenting s) newVal then ret tt
  else
    modify (set_isPresenting newVal) ;;
    let icon := if newVal then "present-stop" else "blank" in
    drawButton icon.

Definition updateIsMicMuted : M Promise :=
  async (
    let button := getMicButton in
    let newVal :=
      looseEq (match button with
               | Some b => dataset_isMuted b
               | None => None
               end) "true" in
    match button with
    | Some _ =>
        let img := if newVal then "mic-disabled" else "mic" in
        drawButton img
    | None => ret tt
    end).

Definition updateIsCamMuted : M Promise :=
  async (
    let button := getCamButton in
    match button with
    | Some b =>
        let img :=
          if looseEq (dataset_isMuted b) "true" then "cam-disabled"
          else "cam" in
        drawButton img
    | None => ret tt
    end).

Definition updateHandState : M Promise :=
  async (
    let elem := getHandButton in
    match elem with
    | Some e =>
        let img :=
          if classList_contains e "SNTzF" then "hand-raised" else "hand" in
        drawButton img
    | None => ret tt
    end).

Definition updateCCState : M Promise :=
  async (
    let elem := getCCButton in
    match elem with
    | Some e =>
        let img := if classList_contains e "o7y9G" then "cc-on" else "cc" in
        drawButton img
    | None => ret tt
    end).

(** [selected?.getAttribute('data-tab-id')] of the picker's selected tab. *)
Definition selectedTabId : option string :=
  let picker := querySelector doc "[jsname=I0Fcpe]" in
  let selected :=
    match picker with
    | Some p => elemQuerySelector p "[aria-selected=true]"
    | None => None
    end in
  match selected with
  | Some t => getAttribute t "data-tab-id"
  | None => None
  end.

Definition updateSidePanel : M unit :=
  let selectedId := selectedTabId in
  let userIcon := if looseEq selectedId "1" then "users-open" else "users" in
  drawButton userIcon ;;
  let chatIcon := if looseEq selectedId "2" then "chat-open" else "chat" in
  drawButton chatIcon.

(** *** Setting up the hand and caption watchers *)

Definition classFilter : ObserveOptions :=
  mkOptions false false false ["class"].

Definition setupHandButton : M unit :=
  modify (set_handButtonReady true) ;;
  let handButton := getHandButton in
  observe handObserver handButton classFilter ;;
  updateHandState ;;
  ret tt.

Definition setupCCButton : M unit :=
  modify (set_ccButtonReady true) ;;
  let ccButton := getCCButton in
  observe ccObserver ccButton classFilter ;;
  updateCCState ;;
  ret tt.

(** *** Interacting with Meet UI elements *)

Definition tapElement (selector : string) : M unit :=
  match querySelector doc selector with
  | Some elem => click elem
  | None => ret tt
  end.

Definition tapStartInstantMeeting : M unit := tapElement "[jsname=CuSyi]".

Definition tapStartNextMeeting : M unit :=
  tapElement "[data-default-focus=true]".

Definition tapEnterMeeting : M unit := tapElement "[jsname=Qx7uuf]".

Definition tapMic : M unit :=
  match getMicButton with
  | Some button => click button
  | None => ret tt
  end.

Definition tapCam : M unit :=
  match getCamButton with
  | Some button => click button
  | None => ret tt
  end.

Definition tapHand : M unit :=
  match getHandButton with
  | Some c =>
      match firstChild c with
      | Some button => click button
      | None => ret tt
      end
  | None => ret tt
  end.

Definition tapCC : M unit :=
  match getCCButton with
  | Some c =>
      match firstChild c with
      | Some button => click button
      | None => ret tt
      end
  | None => ret tt
  end.

Definition tapClosePanel : M unit := tapElement "[jscontroller=soHxf]".

Definition tabSelector (id : string) : string :=
  "[data-tab-id=" ++ dquote ++ id ++ dquote ++ "]".

(** The body shared by [#tapUsers] (tab 1) and [#tapChat] (tab 2): the
    panel test short-circuits, and both the attribute read and the click go
    through the tab button unguarded. *)
Definition tapTab (id : string) : M unit :=
  let panelElem := querySelector doc "[jsname=Yz8Ubc]" in
  let tabButton := querySelector doc (tabSelector id) in
  expanded <-
    match panelElem with
    | Some _ =>
        b <- member tabButton "Cannot read properties of null" ;;
        ret (looseEq (getAttribute b "aria-expanded") "true")
    | None => ret false
    end ;;
  if expanded then tapClosePanel
  else
    b <- member tabButton "Cannot read properties of null" ;;
    click b.

Definition tapUsers : M unit := tapTab "1".

Definition tapChat : M unit := tapTab "2".

Definition tapStopPresenting : M unit :=
  match getStopPresentingButton with
  | Some button => click button
  | None => ret tt
  end.

Definition tapHangUp : M unit := tapElement "[jsname=CQylAd]".

Definition tapRejoin : M unit := tapElement "[jsname=oI7Fj] [role=button]".

Definition tapHome : M unit := tapElement "[jsname=WIVZEd] [role=button]".

(** *** Setting up rooms *)

Definition enterLobby : M unit :=
  s <- get ;;
  if roomIs (currentRoom s) lobby then ret tt
  else
    modify (set_currentRoom lobby) ;;
    emit (ConsoleLog lobby) ;;
    resetButtons ;;
    drawHueButtons ;;
    drawButton "start-next" ;;
    drawButton "start-instant" ;;
    autoLightsOff.

Definition enterGreenRoom : M unit :=
  s <- get ;;
  if roomIs (currentRoom s) greenRoom then ret tt
  else
    modify (set_currentRoom greenRoom) ;;
    emit (ConsoleLog greenRoom) ;;
    resetButtons ;;
    drawHueButtons ;;
    drawButton "enter-meeting" ;;
    updateIsMicMuted ;;
    updateIsCamMuted ;;
    autoLightsOff.

Definition statusBarMOOpts : ObserveOptions := mkOptions false true true [].

Definition selectedPanelMOOpts : ObserveOptions :=
  mkOptions false false true ["aria-selected"].

Definition sidePanelMOOpts : ObserveOptions :=
  mkOptions false true false ["aria-selected"].

Definition enterMeeting : M unit :=
  s <- get ;;
  if roomIs (currentRoom s) meeting then ret tt
  else
    modify (set_currentRoom meeting) ;;
    emit (ConsoleLog meeting) ;;
    observe statusBarObserver getStatusBar statusBarMOOpts ;;
    let sidePanelElem := querySelector doc "[jsname=o4MlPd]" in
    observe sidePanelObserver sidePanelElem sidePanelMOOpts ;;
    resetButtons ;;
    drawHueButtons ;;
    updateSidePanel ;;
    updateIsMicMuted ;;
    updateIsCamMuted ;;
    updateHandState ;;
    updateCCState ;;
    drawButton "end-call" ;;
    autoLightsOff.

Definition enterExitHall : M unit :=
  s <- get ;;
  if roomIs (currentRoom s) exitHall then ret tt
  else
    modify (set_currentRoom exitHall) ;;
    emit (ConsoleLog exitHall) ;;
    resetButtons ;;
    drawHueButtons ;;
    drawButton "rejoin" ;;
    drawButton "home" ;;
    autoLightsOff.

(** *** The observer callbacks *)

(** The callback of [bodyObserver] (constructor). *)
Definition bodyCallback : M unit :=
  (if truthy (querySelector doc "div[data-second-screen]") then enterMeeting
   else if truthy (querySelector doc ".KWIIWd") then enterGreenRoom
   else if truthy (querySelector doc ".CRFCdf") then enterExitHall
   else ret tt) ;;
  updateIsPresenting.

(** The callback of [muteObserver] is [async]: it runs up to its first
    [await] and is resumed in a later microtask, when the page may read
    differently. *)
Definition muteCallback : M unit :=
  p <- updateIsMicMuted ;;
  s <- get ;;
  modify (set_awaiting (awaiting s ++ [p])).

Definition muteCallbackResumed : M unit :=
  s <- get ;;
  match awaiting s with
  | [] => ret tt
  | p :: rest =>
      modify (set_awaiting rest) ;;
      match p with
      | Fulfilled => updateIsCamMuted ;; ret tt
      | Rejected _ => ret tt
      end
  end.

Inductive MutationType : Type := mtAttributes | mtChildList | mtCharacterData.

Record MutationRecord : Type := mkRecord {
  recordType : MutationType;
  addedNodes : list nat
}.

Definition isChildList (t : MutationType) : bool :=
  match t with
  | mtChildList => true
  | _ => false
  end.

(** The callback of [statusBarObserver] (in [#enterMeeting]). *)
Fixpoint statusBarCallback (records : list MutationRecord) : M unit :=
  match records with
  | [] => ret tt
  | change :: rest =>
      (if isChildList (recordType change)
          && (0 <? List.length (addedNodes change))%nat
       then
         s <- get ;;
         (if negb (handButtonReady s) && truthy getHandButton
          then setupHandButton else ret tt) ;;
         s' <- get ;;
         (if negb (ccButtonReady s') && truthy getCCButton
          then setupCCButton else ret tt)
       else ret tt) ;;
      statusBarCallback rest
  end.

(** The callback of [selectedPanelObserver]. *)
Definition selectedPanelCallback : M unit := updateSidePanel.

(** The callback of [sidePanelObserver]. *)
Definition sidePanelCallback : M unit :=
  let picker := querySelector doc "[jsname=I0Fcpe]" in
  let newVal := truthy picker in
  s <- get ;;
  if Bool.eqb (isSidePanelVisible s) newVal then ret tt
  else
    modify (set_isSidePanelVisible newVal) ;;
    updateSidePanel ;;
    if newVal then observe selectedPanelObserver picker selectedPanelMOOpts
    else ret tt.

(** The callbacks of [handObserver] and [ccObserver]. *)
Definition handCallback : M unit := updateHandState ;; ret tt.

Definition ccCallback : M unit := updateCCState ;; ret tt.

(** *** Handling StreamDeck events *)

Definition handleStreamDeckPress (buttonId : Z) : M unit :=
  let id := buttonNameToId deck in
  if (buttonId =? id "light-on")%Z then hueLights_on true
  else if (buttonId =? id "light-off")%Z then hueLights_on false
  else
    s <- get ;;
    if roomIs (currentRoom s) lobby then
      if (buttonId =? id "start-next")%Z then tapStartNextMeeting
      else if (buttonId =? id "start-instant")%Z then tapStartInstantMeeting
      else ret tt
    else if roomIs (currentRoom s) greenRoom then
      if (buttonId =? id "enter-meeting")%Z then tapEnterMeeting
      else if (buttonId =? id "mic")%Z then tapMic
      else if (buttonId =? id "cam")%Z then tapCam
      else ret tt
    else if roomIs (currentRoom s) meeting then
      if (buttonId =? id "users")%Z then tapUsers
      else if (buttonId =? id "chat")%Z then tapChat
      else if (buttonId =? id "present-stop")%Z then tapStopPresenting
      else if (buttonId =? id "mic")%Z then tapMic
      else if (buttonId =? id "cam")%Z then tapCam
      else if (buttonId =? id "hand")%Z then tapHand
      else if (buttonId =? id "cc")%Z then tapCC
      else if (buttonId =? id "end-call")%Z then tapHangUp
      else ret tt
    else if roomIs (currentRoom s) exitHall then
      if (buttonId =? id "rejoin")%Z then tapRejoin
      else if (buttonId =? id "home")%Z then tapHome
      else ret tt
    else ret tt.

(** *** The constructor *)

Definition bodyMOOpts : ObserveOptions := mkOptions true true false [].

Definition muteMutationOpts : ObserveOptions :=
  mkOptions false false true ["data-is-muted"].

Definition constructor : M unit :=
  modify add_keydownListener ;;
  if pathname env =? "/" then enterLobby
  else
    observe bodyObserver (body doc) bodyMOOpts ;;
    observe muteObserver (body doc) muteMutationOpts.

End Methods.

(** ** The event loop *)

(** What the host runtime can deliver to an instance: a [keydown] of the
    StreamDeck, the callback of an observer with its list of records, or the
    resumption of a suspended [muteObserver] callback. *)
Inductive Event : Type :=
| keydown (buttonId : Z)
| mutation (o : Observer) (records : list MutationRecord)
| resumption.

(** An event is delivered only to a listener or observer that exists. *)
Definition enabled (s : MeetWrapper) (ev : Event) : bool :=
  match ev with
  | keydown _ => (0 <? keydownListeners s)%nat
  | mutation o _ => existsb (fun ob => Observer_eqb (observer ob) o) (observing s)
  | resumption => (0 <? List.length (awaiting s))%nat
  end.

(** The handler that runs for an event, in the environment of that moment. *)
Definition handle (env : Env) (ev : Event) : M unit :=
  match ev with
  | keydown buttonId => handleStreamDeckPress env buttonId
  | mutation bodyObserver _ => bodyCallback env
  | mutation muteObserver _ => muteCallback env
  | mutation statusBarObserver records => statusBarCallback env records
  | mutation selectedPanelObserver _ => selectedPanelCallback env
  | mutation sidePanelObserver _ => sidePanelCallback env
  | mutation handObserver _ => handCallback env
  | mutation ccObserver _ => ccCallback env
  | resumption => muteCallbackResumed env
  end.

(** Handlers run to completion one after the other; an exception that leaves
    a handler ends that handler only, and the instance keeps what the
    handler had already written. *)
Inductive Reaches (s0 : MeetWrapper) : MeetWrapper -> Prop :=
| reaches_start : Reaches s0 s0
| reaches_event (env : Env) (ev : Event) (s : MeetWrapper) :
    Reaches s0 s -> enabled s ev = true ->
    Reaches s0 (after (handle env ev s)).

(** The states of an instance built by [new MeetWrapper(...)] in [env0]. *)
Definition Lives (env0 : Env) (s : MeetWrapper) : Prop :=
  Reaches (after (constructor env0 fresh)) s.

(** ** Vocabulary of the statements *)

(** The device calls that drawing the icons [names], in that order, makes in
    [env]: what [#drawButton] itself does for each. *)
Definition drawn (env : Env) (names : list string) : list Effect :=
  flat_map (fun n => calls (drawButton env n fresh)) names.

(** A method that completes normally with [a], writes nothing to the
    instance and makes the calls [l]. *)
Definition says {A : Type} (a : A) (l : list Effect) : M A :=
  fun s => mkRun (Normal a) s l.

Definition isClear (e : Effect) : bool :=
  match e with
  | ClearAllButtons => true
  | _ => false
  end.

Definition isFill (e : Effect) : bool :=
  match e with
  | FillURL _ _ _ => true
  | _ => false
  end.

Definition isClick (e : Effect) : bool :=
  match e with
  | Click _ => true
  | _ => false
  end.

(** Number of [clearAllButtons] calls in a trace. *)
Definition clears (l : list Effect) : nat :=
  List.length (filter isClear l).

(** The room the markers of a page stand for, in the order the body
    observer tests them; [None] when no marker is on the page. *)
Definition classify (d : Document) : option Room :=
  if truthy (querySelector d "div[data-second-screen]") then Some meeting
  else if truthy (querySelector d ".KWIIWd") then Some greenRoom
  else if truthy (querySelector d ".CRFCdf") then Some exitHall
  else None.

(** The last room matched along a sequence of observed pages, starting from
    the room [start]. *)
Definition lastMatch (start : option Room) (pages : list Env) : option Room :=
  fold_left
    (fun cur e =>
       match classify (document e) with
       | Some r => Some r
       | None => cur
       end)
    pages start.

(** Delivering a sequence of events, each in its own environment: the
    instance at the end and all the calls made. *)
Fixpoint deliver (evs : list (Env * Event)) (s : MeetWrapper)
  : MeetWrapper * list Effect :=
  match evs with
  | [] => (s, [])
  | (env, ev) :: rest =>
      let r := handle env ev s in
      let '(s', l) := deliver rest (after r) in
      (s', calls r ++ l)
  end.

(** The body observer seeing the pages [pages] one after the other. *)
Definition bodyMutations (pages : list Env) : list (Env * Event) :=
  map (fun e => (e, mutation bodyObserver [])) pages.

(** The button names the press handler tests in any room, and in each. *)
Definition globalActions : list string := ["light-on"; "light-off"].

Definition roomActions (cur : option Room) : list string :=
  match cur with
  | Some lobby => ["start-next"; "start-instant"]
  | Some greenRoom => ["enter-meeting"; "mic"; "cam"]
  | Some meeting =>
      ["users"; "chat"; "present-stop"; "mic"; "cam"; "hand"; "cc";
       "end-call"]
  | Some exitHall => ["rejoin"; "home"]
  | None => []
  end.

(** The icons [#enterMeeting] asks for after clearing the device. *)
Definition hueIcons (env : Env) : list string :=
  if truthy (hueLights env) then ["light-on"; "light-off"] else [].

Definition sidePanelIcons (env : Env) : list string :=
  [ if looseEq (selectedTabId env) "1" then "users-open" else "users";
    if looseEq (selectedTabId env) "2" then "chat-open" else "chat" ].

Definition micIcon (env : Env) : list string :=
  match getMicButton env with
  | Some b =>
      [ if looseEq (dataset_isMuted b) "true" then "mic-disabled" else "mic" ]
  | None => []
  end.

Definition camIcon (env : Env) : list string :=
  match getCamButton env with
  | Some b =>
      [ if looseEq (dataset_isMuted b) "true" then "cam-disabled" else "cam" ]
  | None => []
  end.

Definition handIcon (env : Env) : list string :=
  match getHandButton env with
  | Some e => [ if classList_contains e "SNTzF" then "hand-raised" else "hand" ]
  | None => []
  end.

Definition ccIcon (env : Env) : list string :=
  match getCCButton env with
  | Some e => [ if classList_contains e "o7y9G" then "cc-on" else "cc" ]
  | None => []
  end.

Definition meetingIcons (env : Env) : list string :=
  hueIcons env ++ sidePanelIcons env ++ micIcon env ++ camIcon env
  ++ handIcon env ++ ccIcon env ++ ["end-call"].

(** The [on(false)] request that ends a room entry when the lights are on
    automatic. *)
Definition autoOff (env : Env) : list Effect :=
  match hueLights env with
  | Some h => if hueAuto h then [HueOn false] else []
  | None => []
  end.

(** Number of observations of [o] in force. *)
Definition attached (o : Observer) (s : MeetWrapper) : nat :=
  List.length (filter (fun ob => Observer_eqb (observer ob) o) (observing s)).

(** The device calls of running [m] a second time right after a first
    run, on the same page. *)
Definition again {A : Type} (m : M A) (s : MeetWrapper) : list Effect :=
  calls (m (after (m s))).

(** A method that never writes to the instance. *)
Definition Silent {A : Type} (m : M A) : Prop :=
  forall s, after (m s) = s.

(** A property of the instance that a method keeps, however it completes. *)
Definition Keeps {A : Type} (P : MeetWrapper -> Prop) (m : M A) : Prop :=
  forall s, P s -> P (after (m s)).

(** The pages the body observer saw along a sequence of events. *)
Definition isBodyMutation (ev : Event) : bool :=
  match ev with
  | mutation bodyObserver _ => true
  | _ => false
  end.

Definition bodyPages (evs : list (Env * Event)) : list Env :=
  map fst (filter (fun e => isBodyMutation (snd e)) evs).

(** Each of the hand and caption watchers is attached as many times as its
    ready flag says: never before the flag is set, once after. *)
Definition flagCount (b : bool) : nat := if b then 1 else 0.

Definition WatchersMatchFlags (s : MeetWrapper) : Prop :=
  attached handObserver s = flagCount (handButtonReady s) /\
  attached ccObserver s = flagCount (ccButtonReady s).

(** The instance after [#enterMeeting]: untouched when already in the
    meeting room; otherwise the room is written, then the status-bar and
    side-panel observers are attached as far as their targets exist. *)
Definition afterEnterMeeting (env : Env) (s : MeetWrapper) : MeetWrapper :=
  if roomIs (currentRoom s) meeting then s
  else
    let s1 := set_currentRoom meeting s in
    match getStatusBar env with
    | None => s1
    | Some sb =>
        let s2 :=
          add_observation
            (mkObservation statusBarObserver (nodeId sb) statusBarMOOpts) s1 in
        match querySelector (document env) "[jsname=o4MlPd]" with
        | None => s2
        | Some sp =>
            add_observation
              (mkObservation sidePanelObserver (nodeId sp) sidePanelMOOpts) s2
        end
    end.

(** The entry method of each room. *)
Definition enterRoom (env : Env) (r : Room) : M unit :=
  match r with
  | lobby => enterLobby env
  | greenRoom => enterGreenRoom env
  | meeting => enterMeeting env
  | exitHall => enterExitHall env
  end.

(** Every call a method makes satisfies [Q], however it completes. *)
Definition Emits {A : Type} (Q : Effect -> bool) (m : M A) : Prop :=
  forall s, forallb Q (calls (m s)) = true.

(** Calls on the page or on the lights: what a key press may do. *)
Definition isPageOrLight (e : Effect) : bool :=
  match e with
  | Click _ | HueOn _ => true
  | _ => false
  end.

(** Calls of the mirroring side: the log line, clearing and filling keys,
    and switching the lights off. *)
Definition isMirror (e : Effect) : bool :=
  match e with
  | ConsoleLog _ | ClearAllButtons | FillURL _ _ _ | HueOn false => true
  | _ => false
  end.

(** Calls on the StreamDeck. *)
Definition isDeviceCall (e : Effect) : bool := isClear e || isFill e.

(** The methods a key press can end in. *)
Definition pressLeaves (env : Env) : list (M unit) :=
  [ hueLights_on env true; hueLights_on env false;
    tapStartNextMeeting env; tapStartInstantMeeting env;
    tapEnterMeeting env; tapMic env; tapCam env;
    tapUsers env; tapChat env; tapStopPresenting env; tapHand env;
    tapCC env; tapHangUp env; tapRejoin env; tapHome env; ret tt ].

(** The tap bound to a button name. *)
Definition boundTap (env : Env) (name : string) : M unit :=
  if name =? "start-next" then tapStartNextMeeting env
  else if name =? "start-instant" then tapStartInstantMeeting env
  else if name =? "enter-meeting" then tapEnterMeeting env
  else if name =? "mic" then tapMic env
  else if name =? "cam" then tapCam env
  else if name =? "users" then tapUsers env
  else if name =? "chat" then tapChat env
  else if name =? "present-stop" then tapStopPresenting env
  else if name =? "hand" then tapHand env
  else if name =? "cc" then tapCC env
  else if name =? "end-call" then tapHangUp env
  else if name =? "rejoin" then tapRejoin env
  else if name =? "home" then tapHome env
  else ret tt.

(** The icons each room asks for on entry, after the hue icons. *)
Definition roomIcons (env : Env) (r : Room) : list string :=
  match r with
  | lobby => ["start-next"; "start-instant"]
  | greenRoom => ["enter-meeting"] ++ micIcon env ++ camIcon env
  | meeting =>
      sidePanelIcons env ++ micIcon env ++ camIcon env ++ handIcon env
      ++ ccIcon env ++ ["end-call"]
  | exitHall => ["rejoin"; "home"]
  end.

(** A record on which the status-bar callback looks for the buttons. *)
Definition qualifies (change : MutationRecord) : bool :=
  isChildList (recordType change)
  && (0 <? List.length (addedNodes change))%nat.

(** The instance after the two guarded setups of the status-bar callback,
    and the icons they draw. *)
Definition afterHandSetupOf (env : Env) (s : MeetWrapper) : MeetWrapper :=
  match getHandButton env with
  | Some e =>
      if handButtonReady s then s
      else
        add_observation (mkObservation handObserver (nodeId e) classFilter)
          (set_handButtonReady true s)
  | None => s
  end.

Definition afterCCSetupOf (env : Env) (s : MeetWrapper) : MeetWrapper :=
  match getCCButton env with
  | Some e =>
      if ccButtonReady s then s
      else
        add_observation (mkObservation ccObserver (nodeId e) classFilter)
          (set_ccButtonReady true s)
  | None => s
  end.

Definition afterWatcherSetup (env : Env) (s : MeetWrapper) : MeetWrapper :=
  afterCCSetupOf env (afterHandSetupOf env s).

Definition watcherSetupIcons (env : Env) (s : MeetWrapper) : list string :=
  (if handButtonReady s then [] else handIcon env)
  ++ (if ccButtonReady s then [] else ccIcon env).

(** Events of the [muteObserver]: its callback and the resumptions. *)
Definition isMuteEvent (ev : Event) : bool :=
  match ev with
  | mutation muteObserver _ | resumption => true
  | _ => false
  end.

Definition isKeydown (ev : Event) : bool :=
  match ev with
  | keydown _ => true
  | _ => false
  end.

(** Every promise a suspended mute callback waits on is fulfilled. *)
Definition AllFulfilled (s : MeetWrapper) : Prop :=
  Forall (fun p => p = Fulfilled) (awaiting s).

(** ** Sample pages and devices *)

Module Sample.

Definition element (n : nat) (attrs : list (string * string))
    (classes : list string) (child : option Element) : Element :=
  mkElement n
    (fun a =>
       match find (fun kv => String.eqb (fst kv) a) attrs with
       | Some kv => Some (snd kv)
       | None => None
       end)
    classes child (fun _ => None).

Definition page (elems : list (string * Element)) : Document :=
  mkDocument
    (fun sel =>
       match find (fun kv => String.eqb (fst kv) sel) elems with
       | Some kv => Some (snd kv)
       | None => None
       end)
    (Some (element 0 [] [] None)).

(** A fifteen-key layout. *)
Definition keys : list (string * Z) :=
  [ ("light-on", 0%Z); ("light-off", 1%Z); ("start-next", 5%Z);
    ("start-instant", 6%Z); ("enter-meeting", 5%Z); ("users", 5%Z);
    ("chat", 6%Z); ("present-stop", 7%Z); ("mic", 10%Z); ("cam", 11%Z);
    ("hand", 12%Z); ("cc", 13%Z); ("end-call", 14%Z); ("rejoin", 5%Z);
    ("home", 6%Z); ("users-open", 5%Z); ("chat-open", 6%Z);
    ("mic-disabled", 10%Z); ("cam-disabled", 11%Z); ("hand-raised", 12%Z);
    ("cc-on", 13%Z); ("blank", 7%Z) ].

Definition layout (name : string) : Z :=
  match find (fun kv => String.eqb (fst kv) name) keys with
  | Some kv => snd kv
  | None => (-1)%Z
  end.

Definition url (path : string) : string := "chrome-extension://meet/" ++ path.

Definition world (d : Document) (connected : bool) : Env :=
  mkEnv d "/abc-defg-hij" (mkStreamDeck connected layout) None url.

(** A meeting screen with its bottom bar, the side-panel container, both
    tab buttons and the microphone. *)
Definition tab1 : Element := element 21 [("aria-expanded", "true")] [] None.
Definition tab2 : Element := element 22 [("aria-expanded", "false")] [] None.

Definition meetingPage : Document :=
  page [ ("div[data-second-screen]", element 1 [] [] None);
         ("[jsname=EaZ7Cc]", element 2 [] [] None);
         ("[jsname=o4MlPd]", element 3 [] [] None);
         ("[jsname=Dg9Wp]",
            element 4 [] []
              (Some (element 5 [("data-is-muted", "true")] [] None)));
         (tabSelector "1", tab1);
         (tabSelector "2", tab2) ].

(** The same screen with the participants panel open, before the panel's
    close control is on the page. *)
Definition panelOpenPage : Document :=
  page [ ("div[data-second-screen]", element 1 [] [] None);
         ("[jsname=Yz8Ubc]", element 30 [] [] None);
         (tabSelector "1", tab1);
         (tabSelector "2", tab2) ].

(** A meeting screen on which the tab buttons are not rendered. *)
Definition noTabsPage : Document :=
  page [ ("div[data-second-screen]", element 1 [] [] None);
         ("[jsname=EaZ7Cc]", element 2 [] [] None);
         ("[jsname=o4MlPd]", element 3 [] [] None) ].

Definition inRoom (r : Room) : MeetWrapper := set_currentRoom r fresh.

(** The landing page, where the path is "/". *)
Definition landingPage : Document :=
  page [ ("[jsname=CuSyi]", element 40 [] [] None) ].

Definition landing : Env :=
  mkEnv landingPage "/" (mkStreamDeck true layout) None url.

(** A meeting screen whose bottom bar shows the hand and caption buttons. *)
Definition handPage : Document :=
  page [ ("div[data-second-screen]", element 1 [] [] None);
         ("[jsname=EaZ7Cc]", element 2 [] [] None);
         ("[jsname=o4MlPd]", element 3 [] [] None);
         (".p2SYhf", element 50 [] ["p2SYhf"; "SNTzF"] None);
         (".Q8K3Le", element 51 [] ["Q8K3Le"] None) ].


(** An instance built on [handPage] that has seen the page once through the
    body observer and then a node added under the bottom bar. *)
Definition handWorld : Env := world handPage true.

Definition nodeAdded : Event :=
  mutation statusBarObserver [mkRecord mtChildList [50]].

Definition afterHandSetup : MeetWrapper :=
  after (handle handWorld nodeAdded
           (after (handle handWorld (mutation bodyObserver [])
                     (after (constructor handWorld fresh))))).


(** The same worlds with a Hue helper, its lights on automatic or not. *)
Definition worldWithHue (d : Document) (connected auto : bool) : Env :=
  mkEnv d "/abc-defg-hij" (mkStreamDeck connected layout)
    (Some (mkHueHelper auto)) url.

(** A layout with one key per name. *)
Definition wideKeys : list (string * Z) :=
  [ ("light-on", 0%Z); ("light-off", 1%Z); ("users", 2%Z); ("chat", 3%Z);
    ("present-stop", 4%Z); ("mic", 5%Z); ("cam", 6%Z); ("hand", 7%Z);
    ("cc", 8%Z); ("end-call", 9%Z); ("start-next", 10%Z);
    ("start-instant", 11%Z); ("enter-meeting", 12%Z); ("rejoin", 13%Z);
    ("home", 14%Z) ].

Definition wideLayout (name : string) : Z :=
  match find (fun kv => String.eqb (fst kv) name) wideKeys with
  | Some kv => snd kv
  | None => (-1)%Z
  end.

Definition wideWorld (d : Document) : Env :=
  mkEnv d "/abc-defg-hij" (mkStreamDeck true wideLayout) None url.

(** A meeting screen with the side panel open: the picker, and in it the
    tab that is selected, if any. *)
Definition selectedTab (id : string) : Element :=
  element 70 [("aria-selected", "true"); ("data-tab-id", id)] [] None.

Definition picker (selected : option Element) : Element :=
  mkElement 71 (fun _ => None) [] None
    (fun q => if q =? "[aria-selected=true]" then selected else None).

Definition pickerPage (selected : option Element) : Document :=
  page [ ("div[data-second-screen]", element 1 [] [] None);
         ("[jsname=EaZ7Cc]", element 2 [] [] None);
         ("[jsname=o4MlPd]", element 3 [] [] None);
         ("[jsname=I0Fcpe]", picker selected) ].

End Sample.

(** * Properties *)

(** ** Running methods step by step *)

Lemma run_eta {A : Type} (r : Run A) :
  mkRun (completion r) (after r) (calls r) = r.
Proof. destruct r; reflexivity. Qed.

Lemma bind_normal {A B : Type} (m : M A) (f : A -> M B) s a s' l :
  m s = mkRun (Normal a) s' l ->
  bind m f s =
  mkRun (completion (f a s')) (after (f a s')) (l ++ calls (f a s')).
Proof. intros H. unfold bind. rewrite H. reflexivity. Qed.


Lemma bind_says {A B : Type} (a : A) (l : list Effect) (f : A -> M B) s :
  bind (says a l) f s =
  mkRun (completion (f a s)) (after (f a s)) (l ++ calls (f a s)).
Proof. reflexivity. Qed.

#[local] Arguments drawn : simpl never.

Lemma drawn_nil env : drawn env [] = [].
Proof. reflexivity. Qed.

Lemma drawn_app env l1 l2 : drawn env (l1 ++ l2) = drawn env l1 ++ drawn env l2.
Proof. unfold drawn. apply flat_map_app. Qed.

Lemma drawn_cons env n l : drawn env (n :: l) = drawn env [n] ++ drawn env l.
Proof. apply (drawn_app env [n] l). Qed.

Lemma drawn_cons2 env n m l :
  drawn env (n :: m :: l) = drawn env [n] ++ drawn env (m :: l).
Proof. apply drawn_cons. Qed.

Lemma drawn_one env n :
  drawn env [n] =
  if isConnected (streamDeck env)
     && (0 <=? buttonNameToId (streamDeck env) n)%Z
  then [FillURL (buttonNameToId (streamDeck env) n)
          (getURL env ("ico-svg/" ++ n ++ ".svg")) true]
  else [].
Proof.
  unfold drawn, drawButton. cbn [flat_map].
  destruct (isConnected (streamDeck env)); cbn; [|reflexivity].
  rewrite Z.leb_antisym.
  destruct (buttonNameToId (streamDeck env) n <? 0)%Z; reflexivity.
Qed.

(** Drawing makes [fillURL] calls only. *)
Lemma drawn_fills env names : forallb isFill (drawn env names) = true.
Proof.
  induction names as [|n names IH]; [reflexivity|].
  rewrite drawn_cons, forallb_app, IH, drawn_one.
  destruct (isConnected (streamDeck env));
    destruct (0 <=? buttonNameToId (streamDeck env) n)%Z; reflexivity.
Qed.

Lemma clears_app l1 l2 : clears (l1 ++ l2) = clears l1 + clears l2.
Proof. unfold clears. rewrite filter_app, length_app. reflexivity. Qed.

Lemma clears_drawn env names : clears (drawn env names) = 0.
Proof.
  unfold clears. pose proof (drawn_fills env names) as H.
  induction (drawn env names) as [|e l IH]; [reflexivity|].
  cbn in H. apply andb_true_iff in H as [He Hl].
  destruct e; cbn in *; try discriminate; auto.
Qed.

(** ** The methods as plain runs *)

Lemma drawButton_run env n s :
  drawButton env n s = says tt (drawn env [n]) s.
Proof.
  unfold drawn. cbn [flat_map]. rewrite app_nil_r.
  unfold drawButton, says.
  destruct (negb (isConnected (streamDeck env))); [reflexivity|].
  destruct (buttonNameToId (streamDeck env) n <? 0)%Z; reflexivity.
Qed.

Lemma resetButtons_run env s :
  resetButtons env s =
  says tt (if isConnected (streamDeck env) then [ClearAllButtons] else []) s.
Proof.
  unfold resetButtons. destruct (isConnected (streamDeck env)); reflexivity.
Qed.

Lemma drawn_disconnected env names :
  isConnected (streamDeck env) = false -> drawn env names = [].
Proof.
  intros H. induction names as [|n names IH]; [reflexivity|].
  rewrite drawn_cons, IH, drawn_one, H. reflexivity.
Qed.

Lemma drawHueButtons_run env s :
  drawHueButtons env s = says tt (drawn env (hueIcons env)) s.
Proof.
  unfold drawHueButtons, hueIcons.
  destruct (isConnected (streamDeck env)) eqn:Hc; cbn.
  - destruct (hueLights env); cbn; [|reflexivity].
    unfold bind. rewrite !drawButton_run. cbn.
    rewrite drawn_cons2. reflexivity.
  - rewrite drawn_disconnected by assumption. reflexivity.
Qed.

Lemma autoLightsOff_run env s :
  autoLightsOff env s = says tt (autoOff env) s.
Proof.
  unfold autoLightsOff, autoOff, hueLights_on.
  destruct (hueLights env) as [h|]; [|reflexivity].
  destruct (hueAuto h); reflexivity.
Qed.

Lemma updateSidePanel_run env s :
  updateSidePanel env s = says tt (drawn env (sidePanelIcons env)) s.
Proof.
  unfold updateSidePanel, sidePanelIcons, bind.
  rewrite !drawButton_run. cbn.
  rewrite drawn_cons2. reflexivity.
Qed.

Lemma updateIsMicMuted_run env s :
  updateIsMicMuted env s = says Fulfilled (drawn env (micIcon env)) s.
Proof.
  unfold updateIsMicMuted, micIcon, async.
  destruct (getMicButton env); [|reflexivity].
  rewrite drawButton_run. reflexivity.
Qed.

Lemma updateIsCamMuted_run env s :
  updateIsCamMuted env s = says Fulfilled (drawn env (camIcon env)) s.
Proof.
  unfold updateIsCamMuted, camIcon, async.
  destruct (getCamButton env); [|reflexivity].
  rewrite drawButton_run. reflexivity.
Qed.

Lemma updateHandState_run env s :
  updateHandState env s = says Fulfilled (drawn env (handIcon env)) s.
Proof.
  unfold updateHandState, handIcon, async.
  destruct (getHandButton env); [|reflexivity].
  rewrite drawButton_run. reflexivity.
Qed.

Lemma updateCCState_run env s :
  updateCCState env s = says Fulfilled (drawn env (ccIcon env)) s.
Proof.
  unfold updateCCState, ccIcon, async.
  destruct (getCCButton env); [|reflexivity].
  rewrite drawButton_run. reflexivity.
Qed.

Lemma tapElement_run env sel s :
  tapElement env sel s =
  says tt
    (match querySelector (document env) sel with
     | Some e => [Click (nodeId e)]
     | None => []
     end) s.
Proof.
  unfold tapElement. destruct (querySelector (document env) sel); reflexivity.
Qed.

(** ** Drawing one icon *)

(** C5. For every icon name, [#drawButton] issues a fill-button-with-image
    request if and only if the device is connected and the layout lookup
    returns a non-negative button id, and then exactly one, for that id and
    the icon's URL; when the device is disconnected or the lookup is
    negative it makes no device call; in every case it completes normally
    and leaves the instance as it was. *)
Theorem drawButton_fills_iff_connected_and_resolved env iconName s :
  let id := buttonNameToId (streamDeck env) iconName in
  let r := drawButton env iconName s in
  completion r = Normal tt /\ after r = s /\
  (Exists (fun e => isFill e = true) (calls r) <->
     isConnected (streamDeck env) = true /\ (0 <= id)%Z) /\
  calls r =
    (if isConnected (streamDeck env) && (0 <=? id)%Z
     then [FillURL id (getURL env ("ico-svg/" ++ iconName ++ ".svg")) true]
     else []) /\
  (isConnected (streamDeck env) = false \/ (id < 0)%Z -> calls r = []).
Proof.
  cbv zeta. rewrite drawButton_run. unfold says. cbn [completion after calls].
  rewrite drawn_one.
  destruct (isConnected (streamDeck env)) eqn:Hc;
    destruct (0 <=? buttonNameToId (streamDeck env) iconName)%Z eqn:Hid;
    cbn [andb];
    [apply Z.leb_le in Hid | apply Z.leb_gt in Hid
     | apply Z.leb_le in Hid | apply Z.leb_gt in Hid].
  all: repeat split; try reflexivity; try assumption; try discriminate.
  all: try (intros H; inversion H; fail).
  all: try (intros [H1 H2]; first [discriminate | lia]).
  all: try (intros [H|H]; first [discriminate | lia | reflexivity]).
  all: try (intros _; constructor; reflexivity).
  all: match goal with H : Exists _ [] |- _ => inversion H end.
Qed.

(** ** The side-panel icons *)

(** C6. On every run of [#updateSidePanel] the icons sent to the device
    are those of users-open and chat when the tab selected in the picker
    carries data-tab-id "1", of users and chat-open when it carries "2",
    and of users and chat when the picker is absent, when no tab is
    selected, or when the selected tab carries any other id or none; the
    pair is always one of these three.  Each icon is sent as [#drawButton]
    sends it: one [fillURL] for the key of that name when the device is
    connected and the layout has the name, nothing otherwise.  The run
    completes normally and writes nothing. *)
Theorem updateSidePanel_icon_pairs env s :
  let picker := querySelector (document env) "[jsname=I0Fcpe]" in
  let fill := fun name =>
    if isConnected (streamDeck env)
       && (0 <=? buttonNameToId (streamDeck env) name)%Z
    then [FillURL (buttonNameToId (streamDeck env) name)
            (getURL env ("ico-svg/" ++ name ++ ".svg")) true]
    else [] in
  let r := updateSidePanel env s in
  completion r = Normal tt /\ after r = s /\
  (forall p t,
     picker = Some p ->
     elemQuerySelector p "[aria-selected=true]" = Some t ->
     getAttribute t "data-tab-id" = Some "1" ->
     calls r = fill "users-open" ++ fill "chat") /\
  (forall p t,
     picker = Some p ->
     elemQuerySelector p "[aria-selected=true]" = Some t ->
     getAttribute t "data-tab-id" = Some "2" ->
     calls r = fill "users" ++ fill "chat-open") /\
  (forall p t,
     picker = Some p ->
     elemQuerySelector p "[aria-selected=true]" = Some t ->
     getAttribute t "data-tab-id" <> Some "1" ->
     getAttribute t "data-tab-id" <> Some "2" ->
     calls r = fill "users" ++ fill "chat") /\
  (forall p,
     picker = Some p ->
     elemQuerySelector p "[aria-selected=true]" = None ->
     calls r = fill "users" ++ fill "chat") /\
  (picker = None -> calls r = fill "users" ++ fill "chat") /\
  (exists u c,
     calls r = fill u ++ fill c /\
     calls r = drawn env [u; c] /\
     In (u, c) [("users-open", "chat"); ("users", "chat-open");
                ("users", "chat")]).
Proof.
  cbv zeta. rewrite updateSidePanel_run. unfold says, sidePanelIcons.
  cbn [completion after calls]. rewrite drawn_cons2, !drawn_one.
  assert (Hother : forall a : option string,
             a <> Some "1" -> a <> Some "2" ->
             looseEq a "1" = false /\ looseEq a "2" = false).
  { intros [v|] H1 H2; [|split; reflexivity]. cbn [looseEq]. split.
    - destruct (String.eqb_spec v "1"); [subst; contradiction|reflexivity].
    - destruct (String.eqb_spec v "2"); [subst; contradiction|reflexivity]. }
  split; [reflexivity|]. split; [reflexivity|].
  split; [intros p t Hp Ht Ha; unfold selectedTabId; rewrite Hp, Ht, Ha;
          reflexivity|].
  split; [intros p t Hp Ht Ha; unfold selectedTabId; rewrite Hp, Ht, Ha;
          reflexivity|].
  split.
  { intros p t Hp Ht H1 H2. unfold selectedTabId. rewrite Hp, Ht.
    destruct (Hother _ H1 H2) as [E1 E2]. rewrite E1, E2. reflexivity. }
  split; [intros p Hp Ht; unfold selectedTabId; rewrite Hp, Ht; reflexivity|].
  split; [intros Hp; unfold selectedTabId; rewrite Hp; reflexivity|].
  destruct (looseEq (selectedTabId env) "1") eqn:H1.
  - assert (H2 : looseEq (selectedTabId env) "2" = false).
    { destruct (selectedTabId env) as [v|]; [|reflexivity].
      cbn in *. apply String.eqb_eq in H1. subst v. reflexivity. }
    rewrite H2. exists "users-open", "chat".
    rewrite drawn_cons2, !drawn_one.
    split; [reflexivity|]. split; [reflexivity|]. left; reflexivity.
  - destruct (looseEq (selectedTabId env) "2").
    + exists "users", "chat-open". rewrite drawn_cons2, !drawn_one.
      split; [reflexivity|]. split; [reflexivity|].
      right; left; reflexivity.
    + exists "users", "chat". rewrite drawn_cons2, !drawn_one.
      split; [reflexivity|]. split; [reflexivity|].
      right; right; left; reflexivity.
Qed.

Lemma updateSidePanel_icon_pairs_witness :
  calls (updateSidePanel
           (Sample.world (Sample.pickerPage (Some (Sample.selectedTab "1")))
              true) fresh)
  = [ FillURL 5 "chrome-extension://meet/ico-svg/users-open.svg" true;
      FillURL 6 "chrome-extension://meet/ico-svg/chat.svg" true ] /\
  calls (updateSidePanel
           (Sample.world (Sample.pickerPage (Some (Sample.selectedTab "2")))
              true) fresh)
  = [ FillURL 5 "chrome-extension://meet/ico-svg/users.svg" true;
      FillURL 6 "chrome-extension://meet/ico-svg/chat-open.svg" true ] /\
  calls (updateSidePanel
           (Sample.world (Sample.pickerPage (Some (Sample.selectedTab "3")))
              true) fresh)
  = [ FillURL 5 "chrome-extension://meet/ico-svg/users.svg" true;
      FillURL 6 "chrome-extension://meet/ico-svg/chat.svg" true ] /\
  calls (updateSidePanel
           (Sample.world (Sample.pickerPage None) true) fresh)
  = [ FillURL 5 "chrome-extension://meet/ico-svg/users.svg" true;
      FillURL 6 "chrome-extension://meet/ico-svg/chat.svg" true ].
Proof.
  split; [|split; [|split]].
  - pose proof (updateSidePanel_icon_pairs
                  (Sample.world
                     (Sample.pickerPage (Some (Sample.selectedTab "1"))) true)
                  fresh) as (_ & _ & H & _).
    exact (H (Sample.picker (Some (Sample.selectedTab "1")))
             (Sample.selectedTab "1") eq_refl eq_refl eq_refl).
  - pose proof (updateSidePanel_icon_pairs
                  (Sample.world
                     (Sample.pickerPage (Some (Sample.selectedTab "2"))) true)
                  fresh) as (_ & _ & _ & H & _).
    exact (H (Sample.picker (Some (Sample.selectedTab "2")))
             (Sample.selectedTab "2") eq_refl eq_refl eq_refl).
  - pose proof (updateSidePanel_icon_pairs
                  (Sample.world
                     (Sample.pickerPage (Some (Sample.selectedTab "3"))) true)
                  fresh) as (_ & _ & _ & _ & H & _).
    refine (H (Sample.picker (Some (Sample.selectedTab "3")))
              (Sample.selectedTab "3") eq_refl eq_refl _ _);
      vm_compute; discriminate.
  - pose proof (updateSidePanel_icon_pairs
                  (Sample.world (Sample.pickerPage None) true) fresh)
      as (_ & _ & _ & _ & _ & H & _).
    exact (H (Sample.picker None) eq_refl eq_refl).
Defined.

(** ** Presses that resolve to nothing *)

(** C4. A press whose button id is the id of no global light action and of
    no action of the current room makes no call at all (so no simulated
    click), completes normally and leaves the instance unchanged. *)
Theorem handleStreamDeckPress_unbound_is_noop env s buttonId :
  (forall name, In name (globalActions ++ roomActions (currentRoom s)) ->
     buttonNameToId (streamDeck env) name <> buttonId) ->
  handleStreamDeckPress env buttonId s = mkRun (Normal tt) s [].
Proof.
  intros H.
  assert (E : forall name,
             In name (globalActions ++ roomActions (currentRoom s)) ->
             (buttonId =? buttonNameToId (streamDeck env) name)%Z = false).
  { intros name Hin. apply Z.eqb_neq. intros ->. exact (H name Hin eq_refl). }
  unfold handleStreamDeckPress.
  rewrite (E "light-on") by (cbn; auto).
  rewrite (E "light-off") by (cbn; auto).
  unfold bind, get. cbn [completion after calls].
  destruct (currentRoom s) as [[]|]; cbn [roomIs Room_eqb];
    cbn [roomActions globalActions app] in E;
    repeat (rewrite E by (cbn; tauto)); reflexivity.
Qed.

Lemma handleStreamDeckPress_unbound_is_noop_witness :
  handleStreamDeckPress (Sample.world Sample.meetingPage true) 12
    (Sample.inRoom lobby)
  = mkRun (Normal tt) (Sample.inRoom lobby) [].
Proof.
  apply handleStreamDeckPress_unbound_is_noop.
  intros name Hin. cbn in Hin.
  repeat (destruct Hin as [<-|Hin]; [vm_compute; discriminate|]).
  destruct Hin.
Defined.

(** ** The users and chat toggles *)

Lemma tapClosePanel_run env s :
  tapClosePanel env s =
  says tt
    (match querySelector (document env) "[jscontroller=soHxf]" with
     | Some c => [Click (nodeId c)]
     | None => []
     end) s.
Proof. apply tapElement_run. Qed.

(** In the meeting room the users and chat keys reach [#tapUsers] and
    [#tapChat], with the page as it reads when the press is handled. *)
Lemma press_users_dispatch env s buttonId :
  currentRoom s = Some meeting ->
  buttonId <> buttonNameToId (streamDeck env) "light-on" ->
  buttonId <> buttonNameToId (streamDeck env) "light-off" ->
  buttonId = buttonNameToId (streamDeck env) "users" ->
  handleStreamDeckPress env buttonId s = tapUsers env s.
Proof.
  intros Hr Hon Hoff Hu. unfold handleStreamDeckPress.
  apply Z.eqb_neq in Hon, Hoff. rewrite Hon, Hoff.
  unfold bind at 1, get. cbn [completion after calls]. rewrite Hr.
  cbn [roomIs Room_eqb]. apply Z.eqb_eq in Hu. rewrite Hu.
  cbn [app]. apply run_eta.
Qed.

Lemma press_chat_dispatch env s buttonId :
  currentRoom s = Some meeting ->
  buttonId <> buttonNameToId (streamDeck env) "light-on" ->
  buttonId <> buttonNameToId (streamDeck env) "light-off" ->
  buttonId <> buttonNameToId (streamDeck env) "users" ->
  buttonId = buttonNameToId (streamDeck env) "chat" ->
  handleStreamDeckPress env buttonId s = tapChat env s.
Proof.
  intros Hr Hon Hoff Hu Hc. unfold handleStreamDeckPress.
  apply Z.eqb_neq in Hon, Hoff, Hu. rewrite Hon, Hoff.
  unfold bind at 1, get. cbn [completion after calls]. rewrite Hr.
  cbn [roomIs Room_eqb]. rewrite Hu. apply Z.eqb_eq in Hc. rewrite Hc.
  cbn [app]. apply run_eta.
Qed.

Lemma tapTab_present env id b s :
  querySelector (document env) (tabSelector id) = Some b ->
  tapTab env id s =
  (if truthy (querySelector (document env) "[jsname=Yz8Ubc]")
      && looseEq (getAttribute b "aria-expanded") "true"
   then tapClosePanel env
   else click b) s.
Proof.
  intros Hb. unfold tapTab. rewrite Hb.
  destruct (querySelector (document env) "[jsname=Yz8Ubc]"); cbn.
  - unfold bind. cbn.
    destruct (looseEq (getAttribute b "aria-expanded") "true"); cbn.
    + apply run_eta.
    + reflexivity.
  - reflexivity.
Qed.

(** C7, as amended.  Where the tab button of the pressed key is on the
    page, [#tapUsers] (tab "1") and [#tapChat] (tab "2") read its
    aria-expanded attribute from the page as it is when they run: they go to
    the close-panel tap, which clicks the close control if that control is
    on the page and does nothing otherwise, exactly when the panel element
    exists and the attribute reads "true"; otherwise they click the tab
    button, and nothing else. *)
Theorem tapUsers_tapChat_decide_on_aria_expanded env b s :
  let panel := querySelector (document env) "[jsname=Yz8Ubc]" in
  let close := querySelector (document env) "[jscontroller=soHxf]" in
  let expanded := looseEq (getAttribute b "aria-expanded") "true" in
  let outcome :=
    mkRun (Normal tt) s
      (if truthy panel && expanded
       then match close with
            | Some c => [Click (nodeId c)]
            | None => []
            end
       else [Click (nodeId b)]) in
  (querySelector (document env) (tabSelector "1") = Some b ->
     tapUsers env s = outcome) /\
  (querySelector (document env) (tabSelector "2") = Some b ->
     tapChat env s = outcome).
Proof.
  cbv zeta. unfold tapUsers, tapChat.
  split; intros Hb; rewrite (tapTab_present _ _ _ _ Hb);
    destruct (truthy _ && looseEq _ _);
    first [apply tapClosePanel_run | reflexivity].
Qed.

Lemma tapUsers_tapChat_decide_on_aria_expanded_witness :
  let env := Sample.world Sample.meetingPage true in
  tapUsers env (Sample.inRoom meeting)
  = mkRun (Normal tt) (Sample.inRoom meeting) [Click 21] /\
  tapChat env (Sample.inRoom meeting)
  = mkRun (Normal tt) (Sample.inRoom meeting) [Click 22].
Proof.
  split.
  - exact (proj1 (tapUsers_tapChat_decide_on_aria_expanded
                    (Sample.world Sample.meetingPage true) Sample.tab1
                    (Sample.inRoom meeting)) eq_refl).
  - exact (proj2 (tapUsers_tapChat_decide_on_aria_expanded
                    (Sample.world Sample.meetingPage true) Sample.tab2
                    (Sample.inRoom meeting)) eq_refl).
Defined.

(** C7 as stated fails: on a page where the panel element exists and the
    users tab reads aria-expanded "true" but the close control is not there,
    the users tap clicks nothing. *)
Lemma tapUsers_panel_open_without_close_control :
  let env := Sample.world Sample.panelOpenPage true in
  truthy (querySelector (document env) "[jsname=Yz8Ubc]") = true /\
  querySelector (document env) (tabSelector "1") = Some Sample.tab1 /\
  getAttribute Sample.tab1 "aria-expanded" = Some "true" /\
  tapUsers env (Sample.inRoom meeting)
  = mkRun (Normal tt) (Sample.inRoom meeting) [].
Proof. repeat split. Qed.

(** ** Taps and updates on a page that lacks the element *)

(** Every tap other than the users and chat toggles guards its element. *)
Lemma guarded_taps_never_throw env s :
  Forall (fun tap : M unit => completion (tap s) = Normal tt /\ after (tap s) = s)
    [ tapStartInstantMeeting env; tapStartNextMeeting env;
      tapEnterMeeting env; tapMic env; tapCam env; tapHand env; tapCC env;
      tapClosePanel env; tapStopPresenting env; tapHangUp env;
      tapRejoin env; tapHome env ].
Proof.
  repeat constructor;
    unfold tapStartInstantMeeting, tapStartNextMeeting, tapEnterMeeting,
      tapClosePanel, tapHangUp, tapRejoin, tapHome;
    rewrite ?tapElement_run; try reflexivity;
    unfold tapMic, tapCam, tapHand, tapCC, tapStopPresenting;
    repeat match goal with
           | |- context [match ?x with Some _ => _ | None => _ end] =>
               destruct x
           end; reflexivity.
Qed.

(** No icon update throws, whatever the page holds. *)
Lemma updates_never_throw env s :
  completion (updateIsPresenting env s) = Normal tt /\
  completion (updateIsMicMuted env s) = Normal Fulfilled /\
  completion (updateIsCamMuted env s) = Normal Fulfilled /\
  completion (updateHandState env s) = Normal Fulfilled /\
  completion (updateCCState env s) = Normal Fulfilled /\
  completion (updateSidePanel env s) = Normal tt.
Proof.
  rewrite updateIsMicMuted_run, updateIsCamMuted_run, updateHandState_run,
    updateCCState_run, updateSidePanel_run.
  repeat split.
  unfold updateIsPresenting, bind, get. cbn.
  destruct (Bool.eqb _ _); [reflexivity|]. cbn.
  rewrite drawButton_run. reflexivity.
Qed.

(** The users and chat toggles throw whenever their tab button is not on
    the page, having clicked nothing. *)
Lemma tapTab_absent env id s :
  querySelector (document env) (tabSelector id) = None ->
  tapTab env id s =
  mkRun (Throw (TypeError "Cannot read properties of null")) s [].
Proof.
  intros Hb. unfold tapTab. rewrite Hb.
  destruct (querySelector (document env) "[jsname=Yz8Ubc]"); reflexivity.
Qed.

(** C2, at a failing input.  On a meeting page where the tab buttons are
    not rendered, a press of the users key (key 5 of the sample layout) in
    the meeting room ends in a [TypeError] that leaves [#tapUsers] and the
    press handler; the chat key (key 6) does the same through [#tapChat]. *)
Theorem press_users_without_tab_button_throws :
  let env := Sample.world Sample.noTabsPage true in
  querySelector (document env) (tabSelector "1") = None /\
  completion (tapUsers env (Sample.inRoom meeting))
  = Throw (TypeError "Cannot read properties of null") /\
  completion (handleStreamDeckPress env 5 (Sample.inRoom meeting))
  = Throw (TypeError "Cannot read properties of null") /\
  completion (handleStreamDeckPress env 6 (Sample.inRoom meeting))
  = Throw (TypeError "Cannot read properties of null").
Proof. repeat split. Qed.

(** ** Entering the meeting room *)

Ltac step_with lem :=
  erewrite bind_normal by (first [apply lem | reflexivity]);
  cbn [completion after calls].

Ltac step := step_with run_eta.

Lemma enterMeeting_run env s sb sp :
  roomIs (currentRoom s) meeting = false ->
  getStatusBar env = Some sb ->
  querySelector (document env) "[jsname=o4MlPd]" = Some sp ->
  enterMeeting env s =
  mkRun (Normal tt)
    (add_observation (mkObservation sidePanelObserver (nodeId sp) sidePanelMOOpts)
       (add_observation (mkObservation statusBarObserver (nodeId sb) statusBarMOOpts)
          (set_currentRoom meeting s)))
    (ConsoleLog meeting
       :: (if isConnected (streamDeck env) then [ClearAllButtons] else [])
       ++ drawn env (meetingIcons env) ++ autoOff env).
Proof.
  intros Hroom Hsb Hsp. unfold enterMeeting.
  step. rewrite Hroom. cbv iota.
  step. step.
  unfold observe. rewrite Hsb, Hsp. cbn [member].
  step. step.
  step_with resetButtons_run.
  step_with drawHueButtons_run.
  step_with updateSidePanel_run.
  step_with updateIsMicMuted_run.
  step_with updateIsCamMuted_run.
  step_with updateHandState_run.
  step_with updateCCState_run.
  step_with drawButton_run.
  rewrite autoLightsOff_run. unfold says, meetingIcons.
  cbn [completion after calls app].
  rewrite !drawn_app, <- !app_assoc. reflexivity.
Qed.

(** C3, as amended.  A transition into the meeting room on a page that has
    the bottom bar and the side-panel container, with the device connected,
    logs the room, makes exactly one clear-all-buttons call and then, in the
    same run, asks the device for the icons of: the two hue lights when the
    lighting integration is present, the users and chat tabs, the mic, cam,
    hand and captions controls that are on the page, and end-call, each
    drawn as [#drawButton] draws it; the run ends with the lights switched
    off when they are on automatic. *)
Theorem enterMeeting_clears_once_then_draws env s sb sp :
  roomIs (currentRoom s) meeting = false ->
  isConnected (streamDeck env) = true ->
  getStatusBar env = Some sb ->
  querySelector (document env) "[jsname=o4MlPd]" = Some sp ->
  let r := enterMeeting env s in
  completion r = Normal tt /\
  currentRoom (after r) = Some meeting /\
  calls r =
    ConsoleLog meeting :: ClearAllButtons
      :: drawn env
           (hueIcons env ++ sidePanelIcons env ++ micIcon env ++ camIcon env
            ++ handIcon env ++ ccIcon env ++ ["end-call"])
      ++ autoOff env /\
  clears (calls r) = 1.
Proof.
  intros Hroom Hc Hsb Hsp. cbv zeta.
  rewrite (enterMeeting_run env s sb sp Hroom Hsb Hsp), Hc.
  cbn [completion after calls app]. repeat split.
  change (clears ([ConsoleLog meeting; ClearAllButtons]
                    ++ drawn env (meetingIcons env) ++ autoOff env) = 1).
  rewrite !clears_app, clears_drawn. unfold autoOff.
  destruct (hueLights env) as [h|]; [destruct (hueAuto h)|]; reflexivity.
Qed.

Lemma enterMeeting_clears_once_then_draws_witness :
  let env := Sample.world Sample.meetingPage true in
  let r := enterMeeting env fresh in
  completion r = Normal tt /\
  currentRoom (after r) = Some meeting /\
  calls r =
    [ ConsoleLog meeting; ClearAllButtons;
      FillURL 5 "chrome-extension://meet/ico-svg/users.svg" true;
      FillURL 6 "chrome-extension://meet/ico-svg/chat.svg" true;
      FillURL 10 "chrome-extension://meet/ico-svg/mic-disabled.svg" true;
      FillURL 14 "chrome-extension://meet/ico-svg/end-call.svg" true ] /\
  clears (calls r) = 1.
Proof.
  exact (enterMeeting_clears_once_then_draws
           (Sample.world Sample.meetingPage true) fresh
           (Sample.element 2 [] [] None) (Sample.element 3 [] [] None)
           eq_refl eq_refl eq_refl eq_refl).
Defined.

(** C3 as stated fails: with the device disconnected the same transition
    takes place and no clear-all-buttons call is made. *)
Lemma enterMeeting_disconnected_never_clears :
  let r := enterMeeting (Sample.world Sample.meetingPage false) fresh in
  completion r = Normal tt /\
  currentRoom fresh = None /\
  currentRoom (after r) = Some meeting /\
  clears (calls r) = 0.
Proof. repeat split. Qed.

(** ** What a method keeps *)

Lemma after_bind {A B : Type} (m : M A) (f : A -> M B) s :
  after (bind m f s) =
  match completion (m s) with
  | Normal a => after (f a (after (m s)))
  | Throw _ => after (m s)
  end.
Proof. unfold bind. destruct (completion (m s)); reflexivity. Qed.

Lemma Keeps_bind {A B : Type} P (m : M A) (f : A -> M B) :
  Keeps P m -> (forall a, Keeps P (f a)) -> Keeps P (bind m f).
Proof.
  intros Hm Hf s Hs. rewrite after_bind.
  destruct (completion (m s)); [apply Hf|]; apply Hm; assumption.
Qed.

Lemma Keeps_at_bind {A B : Type} (P : MeetWrapper -> Prop)
    (m : M A) (f : A -> M B) s :
  P (after (m s)) -> (forall a, Keeps P (f a)) -> P (after (bind m f s)).
Proof.
  intros Hm Hf. rewrite after_bind.
  destruct (completion (m s)); [apply Hf|]; assumption.
Qed.

Lemma Keeps_get_bind {B : Type} (P : MeetWrapper -> Prop)
    (f : MeetWrapper -> M B) :
  (forall s, P s -> P (after (f s s))) -> Keeps P (bind get f).
Proof. intros H s Hs. rewrite after_bind. cbn. apply H, Hs. Qed.

Lemma Keeps_Silent {A : Type} P (m : M A) : Silent m -> Keeps P m.
Proof. intros H s Hs. rewrite H. exact Hs. Qed.

Lemma Keeps_modify (P : MeetWrapper -> Prop) f :
  (forall s, P s -> P (f s)) -> Keeps P (modify f).
Proof. intros H s Hs. apply H, Hs. Qed.

Lemma Keeps_if {A : Type} P (b : bool) (m1 m2 : M A) :
  Keeps P m1 -> Keeps P m2 -> Keeps P (if b then m1 else m2).
Proof. destruct b; auto. Qed.

Lemma Silent_ret {A : Type} (a : A) : Silent (ret a).
Proof. intros s. reflexivity. Qed.

Lemma Silent_throw {A : Type} e : Silent (@throw A e).
Proof. intros s. reflexivity. Qed.

Lemma Silent_emit e : Silent (emit e).
Proof. intros s. reflexivity. Qed.

Lemma Silent_get : Silent get.
Proof. intros s. reflexivity. Qed.

Lemma Silent_member {A : Type} (o : option A) what : Silent (member o what).
Proof. intros s. destruct o; reflexivity. Qed.

Lemma Silent_bind {A B : Type} (m : M A) (f : A -> M B) :
  Silent m -> (forall a, Silent (f a)) -> Silent (bind m f).
Proof.
  intros Hm Hf s. rewrite after_bind, Hm.
  destruct (completion (m s)); [apply Hf | reflexivity].
Qed.

Lemma Silent_async (m : M unit) : Silent m -> Silent (async m).
Proof.
  intros Hm s. unfold async. specialize (Hm s).
  destruct (completion (m s)); exact Hm.
Qed.

Lemma Silent_if {A : Type} (b : bool) (m1 m2 : M A) :
  Silent m1 -> Silent m2 -> Silent (if b then m1 else m2).
Proof. destruct b; auto. Qed.

Lemma Silent_says {A : Type} (a : A) l : Silent (says a l).
Proof. intros s. reflexivity. Qed.

Lemma Silent_click e : Silent (click e).
Proof. intros s. reflexivity. Qed.

Lemma Silent_drawButton env n : Silent (drawButton env n).
Proof. intros s. rewrite drawButton_run. reflexivity. Qed.

Lemma Silent_resetButtons env : Silent (resetButtons env).
Proof. intros s. rewrite resetButtons_run. reflexivity. Qed.

Lemma Silent_drawHueButtons env : Silent (drawHueButtons env).
Proof. intros s. rewrite drawHueButtons_run. reflexivity. Qed.

Lemma Silent_autoLightsOff env : Silent (autoLightsOff env).
Proof. intros s. rewrite autoLightsOff_run. reflexivity. Qed.

Lemma Silent_hueLights_on env b : Silent (hueLights_on env b).
Proof.
  unfold hueLights_on.
  apply Silent_bind; [apply Silent_member | intros; apply Silent_emit].
Qed.

Lemma Silent_updateSidePanel env : Silent (updateSidePanel env).
Proof. intros s. rewrite updateSidePanel_run. reflexivity. Qed.

Lemma Silent_updateIsMicMuted env : Silent (updateIsMicMuted env).
Proof. intros s. rewrite updateIsMicMuted_run. reflexivity. Qed.

Lemma Silent_updateIsCamMuted env : Silent (updateIsCamMuted env).
Proof. intros s. rewrite updateIsCamMuted_run. reflexivity. Qed.

Lemma Silent_updateHandState env : Silent (updateHandState env).
Proof. intros s. rewrite updateHandState_run. reflexivity. Qed.

Lemma Silent_updateCCState env : Silent (updateCCState env).
Proof. intros s. rewrite updateCCState_run. reflexivity. Qed.

Lemma Silent_tapElement env sel : Silent (tapElement env sel).
Proof. intros s. rewrite tapElement_run. reflexivity. Qed.

Lemma Silent_tapTab env id : Silent (tapTab env id).
Proof.
  intros s.
  destruct (querySelector (document env) (tabSelector id)) as [b|] eqn:Hb.
  - rewrite (tapTab_present _ _ _ _ Hb).
    destruct (_ && _); [apply Silent_tapElement | reflexivity].
  - rewrite (tapTab_absent _ _ _ Hb). reflexivity.
Qed.

Create HintDb silent.

#[local] Hint Resolve Silent_ret Silent_throw Silent_emit Silent_get
  Silent_member Silent_async Silent_says Silent_click Silent_drawButton
  Silent_resetButtons Silent_drawHueButtons Silent_autoLightsOff
  Silent_hueLights_on Silent_updateSidePanel Silent_updateIsMicMuted
  Silent_updateIsCamMuted Silent_updateHandState Silent_updateCCState
  Silent_tapElement Silent_tapTab : silent.

Ltac silent :=
  repeat first
    [ progress auto with silent
    | apply Silent_bind; [|intros ?]
    | apply Silent_if
    | match goal with
      | |- Silent (match ?x with Some _ => _ | None => _ end) => destruct x
      end ].

Lemma Silent_taps env :
  Silent (tapStartInstantMeeting env) /\ Silent (tapStartNextMeeting env) /\
  Silent (tapEnterMeeting env) /\ Silent (tapMic env) /\
  Silent (tapCam env) /\ Silent (tapHand env) /\ Silent (tapCC env) /\
  Silent (tapUsers env) /\ Silent (tapChat env) /\
  Silent (tapStopPresenting env) /\ Silent (tapHangUp env) /\
  Silent (tapRejoin env) /\ Silent (tapHome env).
Proof.
  unfold tapStartInstantMeeting, tapStartNextMeeting, tapEnterMeeting,
    tapMic, tapCam, tapHand, tapCC, tapUsers, tapChat, tapStopPresenting,
    tapHangUp, tapRejoin, tapHome.
  repeat split; silent.
Qed.

(** The press handler never writes to the instance. *)
Lemma Silent_handleStreamDeckPress env buttonId :
  Silent (handleStreamDeckPress env buttonId).
Proof.
  destruct (Silent_taps env)
    as (? & ? & ? & ? & ? & ? & ? & ? & ? & ? & ? & ? & ?).
  unfold handleStreamDeckPress.
  repeat first
    [ assumption
    | progress auto with silent
    | apply Silent_bind; [|intros ?]
    | apply Silent_if ].
Qed.

(** ** The presenting and side-panel watchers *)

Lemma updateIsPresenting_run env s :
  updateIsPresenting env s =
  let newVal := truthy (getStopPresentingButton env) in
  if Bool.eqb (isPresenting s) newVal then mkRun (Normal tt) s []
  else
    mkRun (Normal tt) (set_isPresenting newVal s)
      (drawn env [if newVal then "present-stop" else "blank"]).
Proof.
  unfold updateIsPresenting. cbv zeta. step.
  destruct (Bool.eqb _ _); [reflexivity|].
  step. rewrite drawButton_run. reflexivity.
Qed.

Lemma sidePanelCallback_run env s :
  sidePanelCallback env s =
  match querySelector (document env) "[jsname=I0Fcpe]" with
  | Some picker =>
      if isSidePanelVisible s then mkRun (Normal tt) s []
      else
        mkRun (Normal tt)
          (add_observation
             (mkObservation selectedPanelObserver (nodeId picker)
                selectedPanelMOOpts)
             (set_isSidePanelVisible true s))
          (drawn env (sidePanelIcons env))
  | None =>
      if isSidePanelVisible s then
        mkRun (Normal tt) (set_isSidePanelVisible false s)
          (drawn env (sidePanelIcons env))
      else mkRun (Normal tt) s []
  end.
Proof.
  unfold sidePanelCallback. cbv zeta. step.
  destruct (querySelector (document env) "[jsname=I0Fcpe]") as [picker|];
    destruct (isSidePanelVisible s) eqn:Hv; cbn [truthy Bool.eqb];
    try reflexivity.
  - step. step_with updateSidePanel_run. cbn. rewrite app_nil_r. reflexivity.
  - step. step_with updateSidePanel_run. cbn. rewrite app_nil_r. reflexivity.
Qed.

(** C8, as amended.  The mic, cam, hand and captions updates draw their
    icon on every run on which the target element exists, whatever the
    instance holds, so a second run right after the first repeats the same
    calls; [#updateSidePanel] does the same with its two icons.  The
    presenting update compares the derived value with [#isPresenting] and
    the side-panel watcher compares the picker's presence with
    [#isSidePanelVisible]: each makes no call and writes nothing when the
    value is unchanged, so a second run right after the first is empty. *)
Theorem redraw_policy env s :
  (forall b, getMicButton env = Some b ->
     calls (updateIsMicMuted env s) =
       drawn env
         [if looseEq (dataset_isMuted b) "true" then "mic-disabled" else "mic"]) /\
  (forall b, getCamButton env = Some b ->
     calls (updateIsCamMuted env s) =
       drawn env
         [if looseEq (dataset_isMuted b) "true" then "cam-disabled" else "cam"]) /\
  (forall e, getHandButton env = Some e ->
     calls (updateHandState env s) =
       drawn env [if classList_contains e "SNTzF" then "hand-raised" else "hand"]) /\
  (forall e, getCCButton env = Some e ->
     calls (updateCCState env s) =
       drawn env [if classList_contains e "o7y9G" then "cc-on" else "cc"]) /\
  again (updateIsMicMuted env) s = calls (updateIsMicMuted env s) /\
  again (updateIsCamMuted env) s = calls (updateIsCamMuted env s) /\
  again (updateHandState env) s = calls (updateHandState env s) /\
  again (updateCCState env) s = calls (updateCCState env s) /\
  calls (updateSidePanel env s) = drawn env (sidePanelIcons env) /\
  again (updateSidePanel env) s = calls (updateSidePanel env s) /\
  (isPresenting s = truthy (getStopPresentingButton env) ->
     updateIsPresenting env s = mkRun (Normal tt) s []) /\
  again (updateIsPresenting env) s = [] /\
  (isSidePanelVisible s
     = truthy (querySelector (document env) "[jsname=I0Fcpe]") ->
     sidePanelCallback env s = mkRun (Normal tt) s []) /\
  again (sidePanelCallback env) s = [].
Proof.
  unfold again.
  rewrite !updateIsMicMuted_run, !updateIsCamMuted_run,
    !updateHandState_run, !updateCCState_run, !updateSidePanel_run.
  unfold says, micIcon, camIcon, handIcon, ccIcon.
  cbn [completion after calls].
  repeat split.
  - intros b ->. reflexivity.
  - intros b ->. reflexivity.
  - intros e ->. reflexivity.
  - intros e ->. reflexivity.
  - intros H. rewrite updateIsPresenting_run. cbv zeta.
    rewrite H, Bool.eqb_reflx. reflexivity.
  - rewrite (updateIsPresenting_run env s). cbv zeta.
    destruct (Bool.eqb (isPresenting s) _) eqn:E; cbn [after];
      rewrite updateIsPresenting_run; cbv zeta.
    + rewrite E. reflexivity.
    + cbn [isPresenting set_isPresenting]. rewrite Bool.eqb_reflx. reflexivity.
  - intros H. rewrite sidePanelCallback_run.
    destruct (querySelector (document env) "[jsname=I0Fcpe]");
      cbn [truthy] in H; rewrite H; reflexivity.
  - rewrite (sidePanelCallback_run env s).
    destruct (querySelector (document env) "[jsname=I0Fcpe]") eqn:Hp;
      destruct (isSidePanelVisible s) eqn:Hv; cbn [after];
      rewrite sidePanelCallback_run, Hp; cbn; rewrite ?Hv; reflexivity.
Qed.

Lemma redraw_policy_witness :
  let env := Sample.world Sample.meetingPage true in
  calls (updateIsMicMuted env fresh) =
    [FillURL 10 "chrome-extension://meet/ico-svg/mic-disabled.svg" true] /\
  updateIsPresenting env fresh = mkRun (Normal tt) fresh [] /\
  sidePanelCallback env fresh = mkRun (Normal tt) fresh [].
Proof.
  pose proof (redraw_policy (Sample.world Sample.meetingPage true) fresh)
    as (Hmic & _ & _ & _ & _ & _ & _ & _ & _ & _ & Hpres & _ & Hside & _).
  split; [|split].
  - exact (Hmic _ eq_refl).
  - exact (Hpres eq_refl).
  - exact (Hside eq_refl).
Defined.

(** C8 as stated fails for the side-panel update: run twice in a row on the
    same page, with nothing changed in between, [#updateSidePanel] sends both
    icons to the device again. *)
Lemma updateSidePanel_redraws_unchanged :
  let env := Sample.world Sample.meetingPage true in
  after (updateSidePanel env fresh) = fresh /\
  again (updateSidePanel env) fresh =
    [ FillURL 5 "chrome-extension://meet/ico-svg/users.svg" true;
      FillURL 6 "chrome-extension://meet/ico-svg/chat.svg" true ].
Proof. split; reflexivity. Qed.

(** ** Room entries *)

Lemma roomIs_true cur r : roomIs cur r = true <-> cur = Some r.
Proof.
  destruct cur as [c|]; cbn; [|split; discriminate].
  destruct c, r; cbn; split; congruence.
Qed.

Lemma enterLobby_run env s :
  enterLobby env s =
  if roomIs (currentRoom s) lobby then mkRun (Normal tt) s []
  else
    mkRun (Normal tt) (set_currentRoom lobby s)
      (ConsoleLog lobby
         :: (if isConnected (streamDeck env) then [ClearAllButtons] else [])
         ++ drawn env (hueIcons env ++ ["start-next"; "start-instant"])
         ++ autoOff env).
Proof.
  unfold enterLobby. step. destruct (roomIs _ _); [reflexivity|].
  step. step.
  step_with resetButtons_run.
  step_with drawHueButtons_run.
  step_with drawButton_run.
  step_with drawButton_run.
  rewrite autoLightsOff_run. unfold says. cbn [completion after calls app].
  rewrite drawn_app, drawn_cons2, <- !app_assoc. reflexivity.
Qed.

Lemma enterGreenRoom_run env s :
  enterGreenRoom env s =
  if roomIs (currentRoom s) greenRoom then mkRun (Normal tt) s []
  else
    mkRun (Normal tt) (set_currentRoom greenRoom s)
      (ConsoleLog greenRoom
         :: (if isConnected (streamDeck env) then [ClearAllButtons] else [])
         ++ drawn env
              (hueIcons env ++ ["enter-meeting"] ++ micIcon env ++ camIcon env)
         ++ autoOff env).
Proof.
  unfold enterGreenRoom. step. destruct (roomIs _ _); [reflexivity|].
  step. step.
  step_with resetButtons_run.
  step_with drawHueButtons_run.
  step_with drawButton_run.
  step_with updateIsMicMuted_run.
  step_with updateIsCamMuted_run.
  rewrite autoLightsOff_run. unfold says. cbn [completion after calls app].
  rewrite !drawn_app,
    (drawn_cons env "enter-meeting" (micIcon env ++ camIcon env)),
    !drawn_app, <- !app_assoc.
  reflexivity.
Qed.

Lemma enterExitHall_run env s :
  enterExitHall env s =
  if roomIs (currentRoom s) exitHall then mkRun (Normal tt) s []
  else
    mkRun (Normal tt) (set_currentRoom exitHall s)
      (ConsoleLog exitHall
         :: (if isConnected (streamDeck env) then [ClearAllButtons] else [])
         ++ drawn env (hueIcons env ++ ["rejoin"; "home"])
         ++ autoOff env).
Proof.
  unfold enterExitHall. step. destruct (roomIs _ _); [reflexivity|].
  step. step.
  step_with resetButtons_run.
  step_with drawHueButtons_run.
  step_with drawButton_run.
  step_with drawButton_run.
  rewrite autoLightsOff_run. unfold says. cbn [completion after calls app].
  rewrite drawn_app, drawn_cons2, <- !app_assoc. reflexivity.
Qed.

(** An entry into the room the instance is in returns at once. *)
Lemma enterMeeting_same_room env s :
  currentRoom s = Some meeting ->
  enterMeeting env s = mkRun (Normal tt) s [].
Proof.
  intros H. unfold enterMeeting. step. rewrite H. reflexivity.
Qed.

(** On a page without the bottom bar, or without the side-panel container,
    [observe] throws after the room has been written and before anything is
    cleared or drawn. *)
Lemma enterMeeting_without_status_bar env s :
  roomIs (currentRoom s) meeting = false ->
  getStatusBar env = None ->
  enterMeeting env s =
  mkRun (Throw (TypeError "observe: parameter 1 is not of type Node"))
    (set_currentRoom meeting s) [ConsoleLog meeting].
Proof.
  intros Hroom Hsb. unfold enterMeeting. step. rewrite Hroom. cbv iota.
  step. step. unfold observe. rewrite Hsb. reflexivity.
Qed.

Lemma enterMeeting_without_side_panel env s sb :
  roomIs (currentRoom s) meeting = false ->
  getStatusBar env = Some sb ->
  querySelector (document env) "[jsname=o4MlPd]" = None ->
  enterMeeting env s =
  mkRun (Throw (TypeError "observe: parameter 1 is not of type Node"))
    (add_observation (mkObservation statusBarObserver (nodeId sb) statusBarMOOpts)
       (set_currentRoom meeting s))
    [ConsoleLog meeting].
Proof.
  intros Hroom Hsb Hsp. unfold enterMeeting. step. rewrite Hroom. cbv iota.
  step. step. unfold observe. rewrite Hsb, Hsp. cbn [member].
  step. reflexivity.
Qed.

(** What [#enterMeeting] leaves in the instance, in all four cases. *)
Lemma enterMeeting_after env s :
  after (enterMeeting env s) = afterEnterMeeting env s.
Proof.
  unfold afterEnterMeeting.
  destruct (roomIs (currentRoom s) meeting) eqn:Hroom.
  - apply roomIs_true in Hroom. rewrite enterMeeting_same_room by assumption.
    reflexivity.
  - destruct (getStatusBar env) as [sb|] eqn:Hsb.
    + destruct (querySelector (document env) "[jsname=o4MlPd]") as [sp|] eqn:Hsp.
      * rewrite (enterMeeting_run env s sb sp) by assumption. reflexivity.
      * rewrite (enterMeeting_without_side_panel env s sb) by assumption.
        reflexivity.
    + rewrite enterMeeting_without_status_bar by assumption. reflexivity.
Qed.

(** However it completes, the instance is in the meeting room afterwards. *)
Lemma enterMeeting_room env s :
  currentRoom (after (enterMeeting env s)) = Some meeting.
Proof.
  rewrite enterMeeting_after. unfold afterEnterMeeting.
  destruct (roomIs (currentRoom s) meeting) eqn:Hroom.
  - apply roomIs_true. assumption.
  - destruct (getStatusBar env);
      [destruct (querySelector (document env) "[jsname=o4MlPd]")|];
      reflexivity.
Qed.

(** ** The room along a run of events *)

Ltac keeps :=
  repeat first
    [ apply Keeps_Silent; solve [silent]
    | apply Keeps_bind; [|intros ?]
    | apply Keeps_if
    | apply Keeps_modify; intros ? ?; cbn; assumption
    | match goal with
      | |- Keeps _ (match ?x with Some _ => _ | None => _ end) => destruct x
      | |- Keeps _ (match ?x with [] => _ | _ :: _ => _ end) => destruct x
      | |- Keeps _ (match ?x with Fulfilled => _ | Rejected _ => _ end) =>
          destruct x
      end ].

Section RoomFrame.

Variable env : Env.
Variable r : option Room.

Let P (s : MeetWrapper) : Prop := currentRoom s = r.

Lemma room_kept_observe o tgt opts : Keeps P (observe o tgt opts).
Proof. unfold observe, P. keeps. Qed.

Lemma room_kept_setupHandButton : Keeps P (setupHandButton env).
Proof.
  unfold setupHandButton. pose proof room_kept_observe as Ho. unfold P in *.
  repeat first [apply Ho | apply Keeps_bind; [|intros ?] | progress keeps].
Qed.

Lemma room_kept_setupCCButton : Keeps P (setupCCButton env).
Proof.
  unfold setupCCButton. pose proof room_kept_observe as Ho. unfold P in *.
  repeat first [apply Ho | apply Keeps_bind; [|intros ?] | progress keeps].
Qed.

Lemma room_kept_statusBarCallback records :
  Keeps P (statusBarCallback env records).
Proof.
  pose proof room_kept_setupHandButton as Hh.
  pose proof room_kept_setupCCButton as Hc. unfold P in *.
  induction records as [|change rest IH]; cbn [statusBarCallback].
  - keeps.
  - repeat first
      [ apply IH | apply Hh | apply Hc
      | apply Keeps_bind; [|intros ?] | apply Keeps_if | progress keeps ].
Qed.

Lemma room_kept_sidePanelCallback : Keeps P (sidePanelCallback env).
Proof.
  intros s Hs. rewrite sidePanelCallback_run. unfold P in *.
  destruct (querySelector (document env) "[jsname=I0Fcpe]");
    destruct (isSidePanelVisible s); exact Hs.
Qed.

Lemma room_kept_muteCallback : Keeps P (muteCallback env).
Proof. unfold muteCallback, P. keeps. Qed.

Lemma room_kept_muteCallbackResumed : Keeps P (muteCallbackResumed env).
Proof.
  unfold muteCallbackResumed, P. apply Keeps_get_bind. intros s Hs.
  destruct (awaiting s) as [|p rest]; [exact Hs|].
  assert (K : Keeps (fun x => currentRoom x = r)
    (modify (set_awaiting rest);;
     match p with
     | Fulfilled => updateIsCamMuted env;; ret tt
     | Rejected _ => ret tt
     end)) by keeps.
  apply K, Hs.
Qed.

Lemma room_kept_updateIsPresenting : Keeps P (updateIsPresenting env).
Proof.
  intros s Hs. rewrite updateIsPresenting_run. cbv zeta. unfold P in *.
  destruct (Bool.eqb _ _); exact Hs.
Qed.

End RoomFrame.

(** Only the body observer's callback moves the instance between rooms. *)
Lemma room_frame env ev s :
  isBodyMutation ev = false ->
  currentRoom (after (handle env ev s)) = currentRoom s.
Proof.
  intros Hev. destruct ev as [buttonId|o records|]; cbn [handle].
  - rewrite Silent_handleStreamDeckPress. reflexivity.
  - destruct o; try discriminate.
    + apply (room_kept_muteCallback env (currentRoom s)). reflexivity.
    + apply (room_kept_statusBarCallback env (currentRoom s)). reflexivity.
    + unfold selectedPanelCallback. rewrite Silent_updateSidePanel. reflexivity.
    + apply (room_kept_sidePanelCallback env (currentRoom s)). reflexivity.
    + unfold handCallback.
      assert (H : Silent (updateHandState env;; ret tt)) by silent.
      rewrite H. reflexivity.
    + unfold ccCallback.
      assert (H : Silent (updateCCState env;; ret tt)) by silent.
      rewrite H. reflexivity.
  - apply (room_kept_muteCallbackResumed env (currentRoom s)). reflexivity.
Qed.

Lemma bodyCallback_classified env s :
  bodyCallback env s =
  ((match classify (document env) with
    | Some r => enterRoom env r
    | None => ret tt
    end) ;; updateIsPresenting env) s.
Proof.
  unfold bodyCallback, classify.
  destruct (truthy (querySelector (document env) "div[data-second-screen]"));
    [reflexivity|].
  destruct (truthy (querySelector (document env) ".KWIIWd")); [reflexivity|].
  destruct (truthy (querySelector (document env) ".CRFCdf")); reflexivity.
Qed.

Lemma classify_never_lobby d : classify d <> Some lobby.
Proof.
  unfold classify.
  destruct (truthy (querySelector d "div[data-second-screen]")); [discriminate|].
  destruct (truthy (querySelector d ".KWIIWd")); [discriminate|].
  destruct (truthy (querySelector d ".CRFCdf")); discriminate.
Qed.

Lemma enterRoom_same_room env r s :
  currentRoom s = Some r -> enterRoom env r s = mkRun (Normal tt) s [].
Proof.
  intros H. apply roomIs_true in H.
  destruct r; cbn [enterRoom];
    rewrite ?enterLobby_run, ?enterGreenRoom_run, ?enterExitHall_run, ?H;
    try reflexivity.
  apply enterMeeting_same_room, roomIs_true, H.
Qed.

Lemma enterRoom_room env r s :
  currentRoom (after (enterRoom env r s)) = Some r.
Proof.
  destruct r; cbn [enterRoom];
    rewrite ?enterLobby_run, ?enterGreenRoom_run, ?enterExitHall_run;
    try apply enterMeeting_room.
  all: match goal with
       | |- context [roomIs ?c ?x] => destruct (roomIs c x) eqn:E
       end; [apply roomIs_true, E | reflexivity].
Qed.

Lemma bodyCallback_room env s :
  currentRoom (after (bodyCallback env s)) =
  match classify (document env) with
  | Some r => Some r
  | None => currentRoom s
  end.
Proof.
  rewrite bodyCallback_classified, after_bind.
  destruct (classify (document env)) as [r|].
  - destruct (completion (enterRoom env r s)).
    + rewrite (room_kept_updateIsPresenting env (Some r)); [reflexivity|].
      apply enterRoom_room.
    + apply enterRoom_room.
  - cbn. apply (room_kept_updateIsPresenting env (currentRoom s)). reflexivity.
Qed.

Lemma deliver_cons env ev rest s :
  deliver ((env, ev) :: rest) s =
  (fst (deliver rest (after (handle env ev s))),
   calls (handle env ev s) ++ snd (deliver rest (after (handle env ev s)))).
Proof.
  cbn [deliver]. destruct (deliver rest (after (handle env ev s))).
  reflexivity.
Qed.

Lemma deliver_room evs : forall s,
  currentRoom (fst (deliver evs s)) = lastMatch (currentRoom s) (bodyPages evs).
Proof.
  induction evs as [|[env ev] rest IH]; intros s; [reflexivity|].
  rewrite deliver_cons. cbn [fst]. rewrite IH.
  unfold bodyPages, lastMatch. cbn [filter snd].
  destruct (isBodyMutation ev) eqn:Hev.
  - cbn [map fst fold_left].
    destruct ev as [|o records|]; try discriminate.
    destruct o; try discriminate. cbn [handle].
    rewrite bodyCallback_room. reflexivity.
  - rewrite room_frame by assumption. reflexivity.
Qed.

Lemma bodyCallback_again env s :
  completion (bodyCallback env s) = Normal tt ->
  bodyCallback env (after (bodyCallback env s))
  = mkRun (Normal tt) (after (bodyCallback env s)) [].
Proof.
  intros Hn.
  assert (Hroom := bodyCallback_room env s).
  assert (Hpres : isPresenting (after (bodyCallback env s))
                  = truthy (getStopPresentingButton env)).
  { revert Hn. rewrite bodyCallback_classified. unfold bind.
    destruct (completion (_ s)) as [[]|e]; [|discriminate].
    cbn [completion after]. intros _.
    rewrite updateIsPresenting_run. cbv zeta.
    destruct (Bool.eqb _ _) eqn:E; [|reflexivity].
    apply Bool.eqb_prop in E. exact E. }
  rewrite (bodyCallback_classified env (after _)).
  destruct (classify (document env)) as [r|].
  - erewrite bind_normal by (apply enterRoom_same_room; exact Hroom).
    rewrite updateIsPresenting_run. cbv zeta.
    rewrite Hpres, Bool.eqb_reflx. reflexivity.
  - erewrite bind_normal by reflexivity.
    rewrite updateIsPresenting_run. cbv zeta.
    rewrite Hpres, Bool.eqb_reflx. reflexivity.
Qed.

Lemma bodyCallback_same_room env r s :
  classify (document env) = Some r -> currentRoom s = Some r ->
  bodyCallback env s = updateIsPresenting env s.
Proof.
  intros Hc Hr. rewrite bodyCallback_classified, Hc.
  erewrite bind_normal by (apply enterRoom_same_room; exact Hr).
  apply run_eta.
Qed.

Lemma bodyCallback_no_marker env s :
  classify (document env) = None ->
  bodyCallback env s = updateIsPresenting env s.
Proof.
  intros Hc. rewrite bodyCallback_classified, Hc.
  erewrite bind_normal by reflexivity. apply run_eta.
Qed.

Lemma clears_updateIsPresenting env s :
  clears (calls (updateIsPresenting env s)) = 0.
Proof.
  rewrite updateIsPresenting_run. cbv zeta.
  destruct (Bool.eqb _ _); [reflexivity|]. apply clears_drawn.
Qed.

Lemma bodyPages_bodyMutations pages : bodyPages (bodyMutations pages) = pages.
Proof.
  unfold bodyPages, bodyMutations.
  induction pages as [|e pages IH]; [reflexivity|].
  cbn. f_equal. exact IH.
Qed.

(** C1. Along every sequence of events, and so along every sequence of
    pages seen by the body observer, the current room is the room of the
    last page on which a marker matched, the markers being tested in the
    order meeting, green room, exit hall; no marker stands for the lobby.
    An entry into the room the instance is already in returns at once with
    no call, so the callback then does what the presenting update alone
    does; seeing the same page again right after a callback that ran to its
    end makes no call at all, and in no case does it clear the device. *)
Theorem room_is_last_match_and_reentry_is_idle :
  (forall evs s,
     currentRoom (fst (deliver evs s))
     = lastMatch (currentRoom s) (bodyPages evs)) /\
  (forall pages s,
     currentRoom (fst (deliver (bodyMutations pages) s))
     = lastMatch (currentRoom s) pages) /\
  (forall d, classify d <> Some lobby) /\
  (forall env r s,
     currentRoom s = Some r -> enterRoom env r s = mkRun (Normal tt) s []) /\
  (forall env r s,
     classify (document env) = Some r -> currentRoom s = Some r ->
     bodyCallback env s = updateIsPresenting env s) /\
  (forall env s,
     completion (bodyCallback env s) = Normal tt ->
     bodyCallback env (after (bodyCallback env s))
     = mkRun (Normal tt) (after (bodyCallback env s)) []) /\
  (forall env s, clears (again (bodyCallback env) s) = 0).
Proof.
  split; [exact deliver_room|].
  split; [intros pages s; rewrite deliver_room, bodyPages_bodyMutations;
          reflexivity|].
  split; [exact classify_never_lobby|].
  split; [exact enterRoom_same_room|].
  split; [exact bodyCallback_same_room|].
  split; [exact bodyCallback_again|].
  intros env s. unfold again.
  pose proof (bodyCallback_room env s) as Hroom.
  destruct (classify (document env)) as [r|] eqn:Hc.
  - rewrite (bodyCallback_same_room env r) by assumption.
    apply clears_updateIsPresenting.
  - rewrite bodyCallback_no_marker by assumption.
    apply clears_updateIsPresenting.
Qed.

Lemma room_is_last_match_and_reentry_is_idle_witness :
  let env := Sample.world Sample.meetingPage true in
  let quiet := Sample.world Sample.landingPage true in
  currentRoom (fst (deliver (bodyMutations [env; quiet; env]) fresh))
  = Some meeting /\
  bodyCallback env (after (bodyCallback env fresh))
  = mkRun (Normal tt) (after (bodyCallback env fresh)) [].
Proof.
  destruct room_is_last_match_and_reentry_is_idle
    as (_ & Hpages & _ & _ & _ & Hagain & _).
  split.
  - exact (Hpages [Sample.world Sample.meetingPage true;
                   Sample.world Sample.landingPage true;
                   Sample.world Sample.meetingPage true] fresh).
  - exact (Hagain (Sample.world Sample.meetingPage true) fresh eq_refl).
Defined.

(** ** An instance built on the landing page *)

Lemma constructor_on_landing env0 :
  pathname env0 = "/" ->
  constructor env0 fresh =
  mkRun (Normal tt) (set_currentRoom lobby (add_keydownListener fresh))
    (ConsoleLog lobby
       :: (if isConnected (streamDeck env0) then [ClearAllButtons] else [])
       ++ drawn env0 (hueIcons env0 ++ ["start-next"; "start-instant"])
       ++ autoOff env0).
Proof.
  intros Hpath. unfold constructor. step. rewrite Hpath. cbn [String.eqb].
  rewrite Ascii.eqb_refl. rewrite enterLobby_run. reflexivity.
Qed.

Lemma Lives_on_landing env0 s :
  pathname env0 = "/" -> Lives env0 s ->
  s = set_currentRoom lobby (add_keydownListener fresh).
Proof.
  intros Hpath. unfold Lives. rewrite (constructor_on_landing env0 Hpath).
  cbn [after]. induction 1 as [|env ev s Hs IH Hen]; [reflexivity|].
  subst s. destruct ev as [buttonId|o records|].
  - apply Silent_handleStreamDeckPress.
  - destruct o; discriminate.
  - discriminate.
Qed.

(** C9. If the page path is "/" when the instance is built, the constructor
    enters the lobby and returns with no observation in force and no
    suspended callback; from then on only key presses can be delivered, no
    observer callback ever runs, and the instance stays exactly as the
    constructor left it, so the current room is the lobby in every later
    state. *)
Theorem landing_instance_stays_in_lobby env0 :
  pathname env0 = "/" ->
  let s0 := after (constructor env0 fresh) in
  completion (constructor env0 fresh) = Normal tt /\
  currentRoom s0 = Some lobby /\
  observing s0 = [] /\ awaiting s0 = [] /\ keydownListeners s0 = 1 /\
  (forall s, Lives env0 s -> s = s0) /\
  (forall s, Lives env0 s -> currentRoom s = Some lobby) /\
  (forall s ev, Lives env0 s -> enabled s ev = true ->
     exists buttonId, ev = keydown buttonId) /\
  (forall s env buttonId, Lives env0 s ->
     after (handle env (keydown buttonId) s) = s).
Proof.
  intros Hpath. cbv zeta.
  pose proof (Lives_on_landing env0) as HL.
  rewrite (constructor_on_landing env0 Hpath) in *. cbn [completion after].
  repeat split.
  - intros s Hs. apply HL; assumption.
  - intros s Hs. rewrite (HL s Hpath Hs). reflexivity.
  - intros s ev Hs Hen. rewrite (HL s Hpath Hs) in Hen.
    destruct ev as [buttonId|o records|].
    + exists buttonId. reflexivity.
    + destruct o; discriminate.
    + discriminate.
  - intros s env buttonId _. apply Silent_handleStreamDeckPress.
Qed.

Lemma landing_instance_stays_in_lobby_witness :
  let s0 := after (constructor Sample.landing fresh) in
  currentRoom s0 = Some lobby /\ observing s0 = [] /\
  (forall s, Lives Sample.landing s -> currentRoom s = Some lobby).
Proof.
  pose proof (landing_instance_stays_in_lobby Sample.landing eq_refl)
    as (_ & Hroom & Hobs & _ & _ & _ & Hall & _).
  exact (conj Hroom (conj Hobs Hall)).
Defined.

(** ** The hand and caption watchers *)

Lemma setupHandButton_run env e s :
  getHandButton env = Some e ->
  setupHandButton env s =
  mkRun (Normal tt)
    (add_observation (mkObservation handObserver (nodeId e) classFilter)
       (set_handButtonReady true s))
    (drawn env (handIcon env)).
Proof.
  intros He. unfold setupHandButton. step.
  unfold observe. rewrite He. cbn [member]. step.
  step_with updateHandState_run. cbn. rewrite app_nil_r. reflexivity.
Qed.

Lemma setupCCButton_run env e s :
  getCCButton env = Some e ->
  setupCCButton env s =
  mkRun (Normal tt)
    (add_observation (mkObservation ccObserver (nodeId e) classFilter)
       (set_ccButtonReady true s))
    (drawn env (ccIcon env)).
Proof.
  intros He. unfold setupCCButton. step.
  unfold observe. rewrite He. cbn [member]. step.
  step_with updateCCState_run. cbn. rewrite app_nil_r. reflexivity.
Qed.

(** A property that every write of the class keeps is kept by every
    handler and by the constructor.  The writes are the four field
    assignments outside the setup methods, the observations of the room and
    panel observers, and the two setups, each of which the status-bar
    callback runs only with its flag down and its button on the page. *)
Section Frame.

Variable P : MeetWrapper -> Prop.

Hypothesis P_room : forall r s, P s -> P (set_currentRoom r s).
Hypothesis P_presenting : forall b s, P s -> P (set_isPresenting b s).
Hypothesis P_sidePanel : forall b s, P s -> P (set_isSidePanelVisible b s).
Hypothesis P_awaiting : forall l s, P s -> P (set_awaiting l s).
Hypothesis P_listener : forall s, P s -> P (add_keydownListener s).
Hypothesis P_observe : forall ob s,
  observer ob <> handObserver -> observer ob <> ccObserver ->
  P s -> P (add_observation ob s).
Hypothesis P_setupHand : forall e s,
  handButtonReady s = false -> P s ->
  P (add_observation (mkObservation handObserver (nodeId e) classFilter)
       (set_handButtonReady true s)).
Hypothesis P_setupCC : forall e s,
  ccButtonReady s = false -> P s ->
  P (add_observation (mkObservation ccObserver (nodeId e) classFilter)
       (set_ccButtonReady true s)).

Lemma kept_observe o tgt opts :
  o <> handObserver -> o <> ccObserver -> Keeps P (observe o tgt opts).
Proof.
  intros Hh Hc s Hs. unfold observe. destruct tgt as [e|]; [|exact Hs].
  apply P_observe; assumption.
Qed.

Lemma kept_updateIsPresenting env : Keeps P (updateIsPresenting env).
Proof.
  intros s Hs. rewrite updateIsPresenting_run. cbv zeta.
  destruct (Bool.eqb _ _); [exact Hs|]. apply P_presenting, Hs.
Qed.

Lemma kept_enterRoom env r : Keeps P (enterRoom env r).
Proof.
  intros s Hs. destruct r; cbn [enterRoom].
  - rewrite enterLobby_run. destruct (roomIs _ _); [exact Hs|].
    apply P_room, Hs.
  - rewrite enterGreenRoom_run. destruct (roomIs _ _); [exact Hs|].
    apply P_room, Hs.
  - rewrite enterMeeting_after. unfold afterEnterMeeting.
    destruct (roomIs _ _); [exact Hs|].
    destruct (getStatusBar env);
      [destruct (querySelector (document env) "[jsname=o4MlPd]")|];
      repeat first [apply P_room | apply P_observe; [discriminate..|]];
      exact Hs.
  - rewrite enterExitHall_run. destruct (roomIs _ _); [exact Hs|].
    apply P_room, Hs.
Qed.

Lemma kept_bodyCallback env : Keeps P (bodyCallback env).
Proof.
  intros s Hs. rewrite bodyCallback_classified. revert s Hs.
  apply Keeps_bind; [|intros _; apply kept_updateIsPresenting].
  destruct (classify (document env)); [apply kept_enterRoom|].
  apply Keeps_Silent, Silent_ret.
Qed.

Lemma kept_muteCallback env : Keeps P (muteCallback env).
Proof.
  intros s Hs. unfold muteCallback. step_with updateIsMicMuted_run. step.
  apply P_awaiting, Hs.
Qed.

Lemma kept_muteCallbackResumed env : Keeps P (muteCallbackResumed env).
Proof.
  unfold muteCallbackResumed. apply Keeps_get_bind. intros s Hs.
  destruct (awaiting s) as [|p rest]; [exact Hs|].
  step. destruct p.
  - step_with updateIsCamMuted_run. apply P_awaiting, Hs.
  - apply P_awaiting, Hs.
Qed.

Lemma kept_sidePanelCallback env : Keeps P (sidePanelCallback env).
Proof.
  intros s Hs. rewrite sidePanelCallback_run.
  destruct (querySelector (document env) "[jsname=I0Fcpe]");
    destruct (isSidePanelVisible s); cbn [after]; try exact Hs.
  - apply P_observe; [discriminate..|]. apply P_sidePanel, Hs.
  - apply P_sidePanel, Hs.
Qed.

Lemma kept_watcherSetup env : forall s, P s ->
  P (after
       (((if negb (handButtonReady s) && truthy (getHandButton env)
          then setupHandButton env else ret tt) ;;
         s' <- get ;;
         (if negb (ccButtonReady s') && truthy (getCCButton env)
          then setupCCButton env else ret tt)) s)).
Proof.
  intros s Hs. apply Keeps_at_bind.
  - destruct (handButtonReady s) eqn:Hr; [exact Hs|].
    destruct (getHandButton env) as [e|] eqn:He; [|exact Hs].
    cbn [negb truthy andb]. rewrite (setupHandButton_run env e) by assumption.
    apply P_setupHand; assumption.
  - intros _. apply Keeps_get_bind. intros s' Hs'.
    destruct (ccButtonReady s') eqn:Hr; [exact Hs'|].
    destruct (getCCButton env) as [e|] eqn:He; [|exact Hs'].
    cbn [negb truthy andb]. rewrite (setupCCButton_run env e) by assumption.
    apply P_setupCC; assumption.
Qed.

Lemma kept_statusBarCallback env records :
  Keeps P (statusBarCallback env records).
Proof.
  induction records as [|change rest IH]; cbn [statusBarCallback].
  - apply Keeps_Silent, Silent_ret.
  - apply Keeps_bind; [|intros _; exact IH].
    apply Keeps_if; [|apply Keeps_Silent, Silent_ret].
    apply Keeps_get_bind, kept_watcherSetup.
Qed.

Lemma kept_handle env ev : Keeps P (handle env ev).
Proof.
  destruct ev as [buttonId|o records|]; cbn [handle].
  - apply Keeps_Silent, Silent_handleStreamDeckPress.
  - destruct o.
    + apply kept_bodyCallback.
    + apply kept_muteCallback.
    + apply kept_statusBarCallback.
    + apply Keeps_Silent, Silent_updateSidePanel.
    + apply kept_sidePanelCallback.
    + apply Keeps_Silent. unfold handCallback. silent.
    + apply Keeps_Silent. unfold ccCallback. silent.
  - apply kept_muteCallbackResumed.
Qed.

Lemma kept_constructor env : Keeps P (constructor env).
Proof.
  unfold constructor. apply Keeps_bind; [apply Keeps_modify, P_listener|].
  intros _. apply Keeps_if; [apply (kept_enterRoom env lobby)|].
  apply Keeps_bind; [|intros _]; apply kept_observe; discriminate.
Qed.

Lemma kept_Lives env0 s : P fresh -> Lives env0 s -> P s.
Proof.
  intros H0. unfold Lives. induction 1 as [|env ev s Hs IH Hen].
  - apply kept_constructor, H0.
  - apply kept_handle, IH.
Qed.

End Frame.

Lemma attached_add_observation o ob s :
  attached o (add_observation ob s) =
  attached o s + (if Observer_eqb (observer ob) o then 1 else 0).
Proof.
  unfold attached. cbn [observing add_observation].
  rewrite filter_app, length_app. cbn [filter].
  destruct (Observer_eqb (observer ob) o); reflexivity.
Qed.

Lemma Observer_eqb_neq a b : a <> b -> Observer_eqb a b = false.
Proof. destruct a, b; cbn; congruence. Qed.

#[local] Arguments attached : simpl never.

Lemma attached_set_handButtonReady o b s :
  attached o (set_handButtonReady b s) = attached o s.
Proof. reflexivity. Qed.

Lemma attached_set_ccButtonReady o b s :
  attached o (set_ccButtonReady b s) = attached o s.
Proof. reflexivity. Qed.

Lemma WatchersMatchFlags_observe ob s :
  observer ob <> handObserver -> observer ob <> ccObserver ->
  WatchersMatchFlags s -> WatchersMatchFlags (add_observation ob s).
Proof.
  intros Hh Hc [H1 H2]. unfold WatchersMatchFlags.
  rewrite !attached_add_observation, !Observer_eqb_neq by assumption.
  cbn. lia.
Qed.

Lemma WatchersMatchFlags_setupHand e s :
  handButtonReady s = false -> WatchersMatchFlags s ->
  WatchersMatchFlags
    (add_observation (mkObservation handObserver (nodeId e) classFilter)
       (set_handButtonReady true s)).
Proof.
  intros Hr [H1 H2]. unfold WatchersMatchFlags.
  rewrite !attached_add_observation, !attached_set_handButtonReady, H1, H2, Hr.
  cbn. split; [reflexivity | lia].
Qed.

Lemma WatchersMatchFlags_setupCC e s :
  ccButtonReady s = false -> WatchersMatchFlags s ->
  WatchersMatchFlags
    (add_observation (mkObservation ccObserver (nodeId e) classFilter)
       (set_ccButtonReady true s)).
Proof.
  intros Hr [H1 H2]. unfold WatchersMatchFlags.
  rewrite !attached_add_observation, !attached_set_ccButtonReady, H1, H2, Hr.
  cbn. split; [lia | reflexivity].
Qed.

Lemma WatchersMatchFlags_handle env ev :
  Keeps WatchersMatchFlags (handle env ev).
Proof.
  apply kept_handle;
    first [ exact WatchersMatchFlags_observe
          | exact WatchersMatchFlags_setupHand
          | exact WatchersMatchFlags_setupCC
          | intros; assumption ].
Qed.

Lemma WatchersMatchFlags_Lives env0 s : Lives env0 s -> WatchersMatchFlags s.
Proof.
  apply kept_Lives;
    first [ exact WatchersMatchFlags_observe
          | exact WatchersMatchFlags_setupHand
          | exact WatchersMatchFlags_setupCC
          | split; reflexivity
          | intros; assumption ].
Qed.

Lemma handButtonReady_kept env ev s :
  handButtonReady s = true -> handButtonReady (after (handle env ev s)) = true.
Proof.
  apply (kept_handle (fun x => handButtonReady x = true));
    intros; first [assumption | reflexivity].
Qed.

Lemma ccButtonReady_kept env ev s :
  ccButtonReady s = true -> ccButtonReady (after (handle env ev s)) = true.
Proof.
  apply (kept_handle (fun x => ccButtonReady x = true));
    intros; first [assumption | reflexivity].
Qed.

(** C10. In every state of an instance, the hand watcher and the caption
    watcher are each attached at most once: the number of observations of
    each is 0 while its ready flag is down and 1 once it is up.  A setup
    raises its flag, and no handler lowers a flag that is up, so after the
    first attachment every later event, a status-bar mutation or a new
    entry into the meeting room included, leaves that watcher attached
    exactly once. *)
Theorem watchers_attached_at_most_once env0 s :
  Lives env0 s ->
  attached handObserver s = flagCount (handButtonReady s) /\
  attached ccObserver s = flagCount (ccButtonReady s) /\
  attached handObserver s <= 1 /\
  attached ccObserver s <= 1 /\
  (forall env e s',
     getHandButton env = Some e ->
     handButtonReady (after (setupHandButton env s')) = true) /\
  (forall env e s',
     getCCButton env = Some e ->
     ccButtonReady (after (setupCCButton env s')) = true) /\
  (forall env ev,
     handButtonReady s = true ->
     handButtonReady (after (handle env ev s)) = true /\
     attached handObserver (after (handle env ev s)) = 1) /\
  (forall env ev,
     ccButtonReady s = true ->
     ccButtonReady (after (handle env ev s)) = true /\
     attached ccObserver (after (handle env ev s)) = 1).
Proof.
  intros HL. pose proof (WatchersMatchFlags_Lives env0 s HL) as [Hh Hc].
  split; [exact Hh|]. split; [exact Hc|].
  split; [rewrite Hh; destruct (handButtonReady s); cbn; lia|].
  split; [rewrite Hc; destruct (ccButtonReady s); cbn; lia|].
  split; [intros env e s' He; rewrite (setupHandButton_run env e) by assumption;
          reflexivity|].
  split; [intros env e s' He; rewrite (setupCCButton_run env e) by assumption;
          reflexivity|].
  split; intros env ev Hr.
  - pose proof (handButtonReady_kept env ev s Hr) as Hr'.
    split; [exact Hr'|].
    destruct (WatchersMatchFlags_handle env ev s (conj Hh Hc)) as [Hh' _].
    rewrite Hh', Hr'. reflexivity.
  - pose proof (ccButtonReady_kept env ev s Hr) as Hr'.
    split; [exact Hr'|].
    destruct (WatchersMatchFlags_handle env ev s (conj Hh Hc)) as [_ Hc'].
    rewrite Hc', Hr'. reflexivity.
Qed.

Lemma watchers_attached_at_most_once_witness :
  Lives Sample.handWorld Sample.afterHandSetup /\
  handButtonReady Sample.afterHandSetup = true /\
  attached handObserver Sample.afterHandSetup = 1 /\
  attached ccObserver Sample.afterHandSetup = 1 /\
  attached handObserver
    (after (handle Sample.handWorld Sample.nodeAdded Sample.afterHandSetup))
  = 1.
Proof.
  assert (HL : Lives Sample.handWorld Sample.afterHandSetup).
  { unfold Lives, Sample.afterHandSetup.
    apply reaches_event; [apply reaches_event; [apply reaches_start|]|];
      reflexivity. }
  pose proof (watchers_attached_at_most_once
                Sample.handWorld Sample.afterHandSetup HL)
    as (Hh & Hc & _ & _ & _ & _ & Hnext & _).
  split; [exact HL|]. split; [reflexivity|].
  split; [exact Hh|]. split; [exact Hc|].
  exact (proj2 (Hnext Sample.handWorld Sample.nodeAdded eq_refl)).
Defined.

(** * Further properties of the class *)

(** ** What a key press can do *)

Lemma press_ends_in_leaf env buttonId s :
  exists m, In m (pressLeaves env) /\ handleStreamDeckPress env buttonId s = m s.
Proof.
  unfold handleStreamDeckPress, pressLeaves.
  destruct (buttonId =? _)%Z;
    [eexists; split; [|reflexivity]; cbn; tauto|].
  destruct (buttonId =? _)%Z;
    [eexists; split; [|reflexivity]; cbn; tauto|].
  step. cbn [app].
  repeat match goal with
         | |- context [if ?c then _ else _] => destruct c
         end;
    (eexists; split; [|apply run_eta]; cbn; tauto).
Qed.

Lemma tapElement_gentle env sel s :
  (List.length (calls (tapElement env sel s)) <= 1)%nat /\
  forallb isPageOrLight (calls (tapElement env sel s)) = true.
Proof.
  rewrite tapElement_run.
  destruct (querySelector (document env) sel); cbn; split; auto.
Qed.

Lemma pressLeaves_gentle env s :
  Forall (fun m : M unit =>
            (List.length (calls (m s)) <= 1)%nat /\
            forallb isPageOrLight (calls (m s)) = true)
    (pressLeaves env).
Proof.
  assert (Htab : forall id,
            (List.length (calls (tapTab env id s)) <= 1)%nat /\
            forallb isPageOrLight (calls (tapTab env id s)) = true).
  { intros id.
    destruct (querySelector (document env) (tabSelector id)) as [b|] eqn:Hb.
    - rewrite (tapTab_present _ _ _ _ Hb).
      destruct (_ && _); [apply tapElement_gentle | cbn; auto].
    - rewrite (tapTab_absent _ _ _ Hb). cbn; auto. }
  unfold pressLeaves.
  repeat (apply Forall_cons; [|]); try apply Forall_nil;
    try apply tapElement_gentle; try apply Htab;
    unfold hueLights_on, tapMic, tapCam, tapHand, tapCC, tapStopPresenting;
    try (destruct (hueLights env); cbn; auto; fail);
    repeat match goal with
           | |- context [match ?x with Some _ => _ | None => _ end] =>
               destruct x
           end; cbn; auto.
Qed.

Lemma deliver_keydowns evs : forall s,
  forallb (fun e => isKeydown (snd e)) evs = true ->
  fst (deliver evs s) = s.
Proof.
  induction evs as [|[env ev] rest IH]; intros s H; [reflexivity|].
  cbn [forallb snd] in H. apply andb_true_iff in H as [Hk Hrest].
  rewrite deliver_cons. cbn [fst].
  destruct ev as [buttonId| |]; try discriminate. cbn [handle].
  rewrite Silent_handleStreamDeckPress. apply IH, Hrest.
Qed.

(** X1. A key press never writes to the instance and makes at most one
    call, which is a click on the page or a request to the lights, never a
    call on the StreamDeck; so a run of key presses, on whatever pages,
    leaves the instance as it was. *)
Theorem press_makes_at_most_one_page_or_light_call :
  (forall env buttonId s,
     after (handleStreamDeckPress env buttonId s) = s /\
     (List.length (calls (handleStreamDeckPress env buttonId s)) <= 1)%nat /\
     forallb isPageOrLight (calls (handleStreamDeckPress env buttonId s))
     = true) /\
  (forall evs s,
     forallb (fun e => isKeydown (snd e)) evs = true ->
     fst (deliver evs s) = s).
Proof.
  split; [|exact deliver_keydowns].
  intros env buttonId s. split; [apply Silent_handleStreamDeckPress|].
  destruct (press_ends_in_leaf env buttonId s) as (m & Hin & ->).
  pose proof (pressLeaves_gentle env s) as HF.
  rewrite Forall_forall in HF. exact (HF m Hin).
Qed.

(** X2. The two light keys are tested before anything of the room: a press
    whose id is that of light-on asks the lights on, and one whose id is
    that of light-off (and not of light-on) asks them off, in every room and
    whatever room action shares the id.  With a Hue helper the request is
    the only call; without one the press throws a [TypeError], with no
    call. *)
Theorem light_keys_come_first env s buttonId :
  (buttonId = buttonNameToId (streamDeck env) "light-on" ->
     handleStreamDeckPress env buttonId s = hueLights_on env true s) /\
  (buttonId <> buttonNameToId (streamDeck env) "light-on" ->
   buttonId = buttonNameToId (streamDeck env) "light-off" ->
     handleStreamDeckPress env buttonId s = hueLights_on env false s) /\
  (forall b,
     hueLights_on env b s =
     match hueLights env with
     | Some _ => mkRun (Normal tt) s [HueOn b]
     | None => mkRun (Throw (TypeError "hueLights is undefined")) s []
     end).
Proof.
  split; [|split].
  - intros ->. unfold handleStreamDeckPress. rewrite Z.eqb_refl. reflexivity.
  - intros Hon ->. unfold handleStreamDeckPress.
    apply Z.eqb_neq in Hon. rewrite Hon, Z.eqb_refl. reflexivity.
  - intros b. unfold hueLights_on. destruct (hueLights env); reflexivity.
Qed.

Lemma light_keys_come_first_witness :
  handleStreamDeckPress (Sample.worldWithHue Sample.meetingPage true false) 0
    (Sample.inRoom exitHall)
  = mkRun (Normal tt) (Sample.inRoom exitHall) [HueOn true] /\
  handleStreamDeckPress (Sample.world Sample.meetingPage true) 1
    (Sample.inRoom meeting)
  = mkRun (Throw (TypeError "hueLights is undefined"))
      (Sample.inRoom meeting) [].
Proof.
  split.
  - exact (proj1 (light_keys_come_first
                    (Sample.worldWithHue Sample.meetingPage true false)
                    (Sample.inRoom exitHall) 0) eq_refl).
  - refine (proj1 (proj2 (light_keys_come_first
                            (Sample.world Sample.meetingPage true)
                            (Sample.inRoom meeting) 1)) _ eq_refl).
    vm_compute. discriminate.
Defined.

(** X3. A press of a key other than the mic, cam, hand and cc keys (the
    four taps that click the first child of a container) throws only for
    want of the Hue helper or of a tab button: when the Hue helper was given
    and both tab buttons are on the page, such a press completes normally,
    in every room and whatever else the page holds. *)
Theorem press_off_the_child_taps_completes env s buttonId :
  hueLights env <> None ->
  querySelector (document env) (tabSelector "1") <> None ->
  querySelector (document env) (tabSelector "2") <> None ->
  buttonId <> buttonNameToId (streamDeck env) "mic" ->
  buttonId <> buttonNameToId (streamDeck env) "cam" ->
  buttonId <> buttonNameToId (streamDeck env) "hand" ->
  buttonId <> buttonNameToId (streamDeck env) "cc" ->
  completion (handleStreamDeckPress env buttonId s) = Normal tt.
Proof.
  intros Hhue H1 H2 Hmic Hcam Hhand Hcc.
  apply Z.eqb_neq in Hmic, Hcam, Hhand, Hcc.
  assert (Hlight : forall b, completion (hueLights_on env b s) = Normal tt).
  { intros b. unfold hueLights_on.
    destruct (hueLights env); [reflexivity|congruence]. }
  assert (Helem : forall sel, completion (tapElement env sel s) = Normal tt).
  { intros sel. rewrite tapElement_run. reflexivity. }
  assert (Htab : forall id,
             querySelector (document env) (tabSelector id) <> None ->
             completion (tapTab env id s) = Normal tt).
  { intros id Hid.
    destruct (querySelector (document env) (tabSelector id)) as [b|] eqn:Hb;
      [|congruence].
    rewrite (tapTab_present _ _ _ _ Hb).
    destruct (_ && _); [apply Helem | reflexivity]. }
  assert (Hstop : completion (tapStopPresenting env s) = Normal tt).
  { unfold tapStopPresenting.
    destruct (getStopPresentingButton env); reflexivity. }
  unfold handleStreamDeckPress. rewrite Hmic, Hcam, Hhand, Hcc.
  destruct (buttonId =? buttonNameToId (streamDeck env) "light-on")%Z;
    [apply Hlight|].
  destruct (buttonId =? buttonNameToId (streamDeck env) "light-off")%Z;
    [apply Hlight|].
  step. cbn [app].
  repeat match goal with
         | |- context [if ?c then _ else _] => destruct c
         end;
    first [ reflexivity | apply Helem | apply Hstop
          | apply Htab; assumption ].
Qed.

Lemma press_off_the_child_taps_completes_witness :
  completion
    (handleStreamDeckPress (Sample.worldWithHue Sample.meetingPage true true)
       5 (Sample.inRoom meeting))
  = Normal tt.
Proof.
  apply press_off_the_child_taps_completes; vm_compute; discriminate.
Defined.

(** X4. Where the layout gives the two light keys and the actions of the
    current room ids that are all different, a press of the key of a room
    action runs the tap bound to that name, and only it. *)
Theorem press_runs_the_bound_tap env s name :
  In name (roomActions (currentRoom s)) ->
  NoDup (map (buttonNameToId (streamDeck env))
           (globalActions ++ roomActions (currentRoom s))) ->
  handleStreamDeckPress env (buttonNameToId (streamDeck env) name) s
  = boundTap env name s.
Proof.
  intros Hin Hnd.
  destruct (currentRoom s) as [[]|] eqn:Hr;
    cbn [roomActions globalActions app map] in Hnd;
    cbn [roomActions In] in Hin;
    repeat match goal with
           | H : NoDup (_ :: _) |- _ =>
               apply NoDup_cons_iff in H; destruct H as [? H]
           end;
    cbn [In] in *;
    repeat (destruct Hin as [<-|Hin]; [|]); try contradiction;
    unfold handleStreamDeckPress;
    repeat first
      [ rewrite Z.eqb_refl; cbv iota
      | erewrite (bind_normal get) by reflexivity;
        rewrite Hr; cbn [app roomIs Room_eqb]; cbv iota
      | match goal with
        | |- context [(?a =? ?b)%Z] =>
            destruct (Z.eqb_spec a b) as [e|_]; [exfalso; tauto|]
        end ];
    cbv iota; rewrite ?run_eta; reflexivity.
Qed.

Lemma press_runs_the_bound_tap_witness :
  handleStreamDeckPress (Sample.wideWorld Sample.handPage) 7
    (Sample.inRoom meeting)
  = tapHand (Sample.wideWorld Sample.handPage) (Sample.inRoom meeting).
Proof.
  apply (press_runs_the_bound_tap (Sample.wideWorld Sample.handPage)
           (Sample.inRoom meeting) "hand").
  - cbn. tauto.
  - vm_compute.
    repeat (apply NoDup_cons; [cbn; intuition discriminate|]).
    apply NoDup_nil.
Defined.

(** ** Entering the lobby, the green room and the exit hall *)

Lemma clears_entry env r icons :
  clears (ConsoleLog r
            :: (if isConnected (streamDeck env) then [ClearAllButtons] else [])
            ++ drawn env icons ++ autoOff env)
  = if isConnected (streamDeck env) then 1 else 0.
Proof.
  change (clears ([ConsoleLog r]
                    ++ (if isConnected (streamDeck env)
                        then [ClearAllButtons] else [])
                    ++ drawn env icons ++ autoOff env)
          = if isConnected (streamDeck env) then 1 else 0).
  rewrite !clears_app, clears_drawn. unfold autoOff.
  destruct (isConnected (streamDeck env));
    (destruct (hueLights env) as [h|]; [destruct (hueAuto h)|]); reflexivity.
Qed.

(** X5. The entries into the lobby, the green room and the exit hall never
    throw and leave the instance in their room.  Called in that room they
    do nothing.  Called in another room (or in none) they write the room,
    log it, clear the device once if it is connected, ask for the hue icons
    and the icons of the room, and end by switching the lights off when the
    lights are on automatic. *)
Theorem lobby_greenRoom_exitHall_entries env s r m :
  In (r, m) [ (lobby, enterLobby env); (greenRoom, enterGreenRoom env);
              (exitHall, enterExitHall env) ] ->
  completion (m s) = Normal tt /\
  currentRoom (after (m s)) = Some r /\
  (currentRoom s = Some r -> m s = mkRun (Normal tt) s []) /\
  (currentRoom s <> Some r ->
     after (m s) = set_currentRoom r s /\
     calls (m s) =
       ConsoleLog r
         :: (if isConnected (streamDeck env) then [ClearAllButtons] else [])
         ++ drawn env (hueIcons env ++ roomIcons env r) ++ autoOff env /\
     clears (calls (m s)) = if isConnected (streamDeck env) then 1 else 0).
Proof.
  intros Hin. cbn [In] in Hin.
  assert (E : m s =
              if roomIs (currentRoom s) r then mkRun (Normal tt) s []
              else
                mkRun (Normal tt) (set_currentRoom r s)
                  (ConsoleLog r
                     :: (if isConnected (streamDeck env)
                         then [ClearAllButtons] else [])
                     ++ drawn env (hueIcons env ++ roomIcons env r)
                     ++ autoOff env)).
  { destruct Hin as [H|[H|[H|[]]]]; inversion H; subst r m.
    - apply enterLobby_run.
    - apply enterGreenRoom_run.
    - apply enterExitHall_run. }
  rewrite E. destruct (roomIs (currentRoom s) r) eqn:Hr.
  - apply roomIs_true in Hr. cbn [completion after calls].
    split; [reflexivity|]. split; [exact Hr|]. split; [reflexivity|].
    intros Hne. contradiction.
  - cbn [completion after calls currentRoom set_currentRoom].
    split; [reflexivity|]. split; [reflexivity|]. split.
    + intros Hs. apply roomIs_true in Hs. congruence.
    + intros _. split; [reflexivity|]. split; [reflexivity|].
      apply clears_entry.
Qed.

Lemma lobby_greenRoom_exitHall_entries_witness :
  let env := Sample.worldWithHue Sample.meetingPage true true in
  calls (enterGreenRoom env (Sample.inRoom meeting)) =
    [ ConsoleLog greenRoom; ClearAllButtons;
      FillURL 0 "chrome-extension://meet/ico-svg/light-on.svg" true;
      FillURL 1 "chrome-extension://meet/ico-svg/light-off.svg" true;
      FillURL 5 "chrome-extension://meet/ico-svg/enter-meeting.svg" true;
      FillURL 10 "chrome-extension://meet/ico-svg/mic-disabled.svg" true;
      HueOn false ].
Proof.
  pose proof (lobby_greenRoom_exitHall_entries
                (Sample.worldWithHue Sample.meetingPage true true)
                (Sample.inRoom meeting) greenRoom
                (enterGreenRoom
                   (Sample.worldWithHue Sample.meetingPage true true))
                (or_intror (or_introl eq_refl)))
    as (_ & _ & _ & H).
  refine (proj1 (proj2 (H _))). discriminate.
Defined.

(** ** What the observers' side never does *)

Lemma Emits_bind {A B : Type} Q (m : M A) (f : A -> M B) :
  Emits Q m -> (forall a, Emits Q (f a)) -> Emits Q (bind m f).
Proof.
  intros Hm Hf s. unfold bind. specialize (Hm s).
  destruct (completion (m s)); cbn [calls]; [|exact Hm].
  rewrite forallb_app, Hm. apply Hf.
Qed.

Lemma Emits_nothing {A : Type} Q (m : M A) :
  (forall s, calls (m s) = []) -> Emits Q m.
Proof. intros H s. rewrite H. reflexivity. Qed.

Lemma Emits_if {A : Type} Q (b : bool) (m1 m2 : M A) :
  Emits Q m1 -> Emits Q m2 -> Emits Q (if b then m1 else m2).
Proof. destruct b; auto. Qed.

Lemma Emits_async Q (m : M unit) : Emits Q m -> Emits Q (async m).
Proof.
  intros Hm s. unfold async. specialize (Hm s).
  destruct (completion (m s)); exact Hm.
Qed.

Lemma Emits_observe Q o tgt opts : Emits Q (observe o tgt opts).
Proof. apply Emits_nothing. intros s. destruct tgt; reflexivity. Qed.

Section Mirror.

Variable env : Env.
Variable Q : Effect -> bool.

Hypothesis Q_log : forall r, Q (ConsoleLog r) = true.
Hypothesis Q_drawn : forall names, forallb Q (drawn env names) = true.
Hypothesis Q_reset :
  forallb Q (if isConnected (streamDeck env) then [ClearAllButtons] else [])
  = true.
Hypothesis Q_off : forallb Q (autoOff env) = true.

Lemma Emits_updateIsPresenting : Emits Q (updateIsPresenting env).
Proof.
  intros s. rewrite updateIsPresenting_run. cbv zeta.
  destruct (Bool.eqb _ _); [reflexivity|]. apply Q_drawn.
Qed.

Lemma Q_entry r icons :
  forallb Q
    (ConsoleLog r
       :: (if isConnected (streamDeck env) then [ClearAllButtons] else [])
       ++ drawn env icons ++ autoOff env) = true.
Proof.
  cbn [forallb]. rewrite Q_log, !forallb_app, Q_reset, Q_drawn, Q_off.
  reflexivity.
Qed.

Lemma Emits_enterRoom r : Emits Q (enterRoom env r).
Proof.
  intros s. destruct r; cbn [enterRoom].
  - rewrite enterLobby_run. destruct (roomIs _ _); [reflexivity|].
    apply Q_entry.
  - rewrite enterGreenRoom_run. destruct (roomIs _ _); [reflexivity|].
    apply Q_entry.
  - destruct (roomIs (currentRoom s) meeting) eqn:Hroom.
    + apply roomIs_true in Hroom.
      rewrite enterMeeting_same_room by assumption. reflexivity.
    + destruct (getStatusBar env) as [sb|] eqn:Hsb.
      * destruct (querySelector (document env) "[jsname=o4MlPd]")
          as [sp|] eqn:Hsp.
        -- rewrite (enterMeeting_run env s sb sp) by assumption.
           apply Q_entry.
        -- rewrite (enterMeeting_without_side_panel env s sb) by assumption.
           cbn. rewrite Q_log. reflexivity.
      * rewrite enterMeeting_without_status_bar by assumption.
        cbn. rewrite Q_log. reflexivity.
  - rewrite enterExitHall_run. destruct (roomIs _ _); [reflexivity|].
    apply Q_entry.
Qed.

Lemma Emits_bodyCallback : Emits Q (bodyCallback env).
Proof.
  intros s. rewrite bodyCallback_classified. revert s.
  apply Emits_bind; [|intros _; apply Emits_updateIsPresenting].
  destruct (classify (document env)); [apply Emits_enterRoom|].
  apply Emits_nothing. reflexivity.
Qed.

Lemma Emits_says {A : Type} (a : A) names (m : M A) :
  (forall s, m s = says a (drawn env names) s) -> Emits Q m.
Proof. intros H s. rewrite H. apply Q_drawn. Qed.

Lemma Emits_muteCallback : Emits Q (muteCallback env).
Proof.
  unfold muteCallback.
  apply Emits_bind; [exact (Emits_says _ _ _ (updateIsMicMuted_run env))|].
  intros p. apply Emits_nothing. reflexivity.
Qed.

Lemma Emits_muteCallbackResumed : Emits Q (muteCallbackResumed env).
Proof.
  intros s. unfold muteCallbackResumed. step.
  destruct (awaiting s) as [|p rest]; [reflexivity|].
  step. destruct p; [|reflexivity].
  step_with updateIsCamMuted_run. cbn. rewrite app_nil_r. apply Q_drawn.
Qed.

Lemma Emits_setupHandButton : Emits Q (setupHandButton env).
Proof.
  unfold setupHandButton.
  apply Emits_bind; [apply Emits_nothing; reflexivity|]. intros _.
  apply Emits_bind; [apply Emits_observe|]. intros _.
  apply Emits_bind; [exact (Emits_says _ _ _ (updateHandState_run env))|].
  intros _. apply Emits_nothing. reflexivity.
Qed.

Lemma Emits_setupCCButton : Emits Q (setupCCButton env).
Proof.
  unfold setupCCButton.
  apply Emits_bind; [apply Emits_nothing; reflexivity|]. intros _.
  apply Emits_bind; [apply Emits_observe|]. intros _.
  apply Emits_bind; [exact (Emits_says _ _ _ (updateCCState_run env))|].
  intros _. apply Emits_nothing. reflexivity.
Qed.

Lemma Emits_statusBarCallback records :
  Emits Q (statusBarCallback env records).
Proof.
  induction records as [|change rest IH]; cbn [statusBarCallback].
  - apply Emits_nothing. reflexivity.
  - apply Emits_bind; [|intros _; exact IH].
    apply Emits_if; [|apply Emits_nothing; reflexivity].
    apply Emits_bind; [apply Emits_nothing; reflexivity|]. intros s0.
    apply Emits_bind.
    + apply Emits_if;
        [apply Emits_setupHandButton | apply Emits_nothing; reflexivity].
    + intros _. apply Emits_bind; [apply Emits_nothing; reflexivity|].
      intros s1. apply Emits_if;
        [apply Emits_setupCCButton | apply Emits_nothing; reflexivity].
Qed.

Lemma Emits_sidePanelCallback : Emits Q (sidePanelCallback env).
Proof.
  intros s. rewrite sidePanelCallback_run.
  destruct (querySelector (document env) "[jsname=I0Fcpe]");
    destruct (isSidePanelVisible s); cbn [calls];
    first [reflexivity | apply Q_drawn].
Qed.

Lemma Emits_mirror_handle ev :
  isKeydown ev = false -> Emits Q (handle env ev).
Proof.
  intros Hev. destruct ev as [|o records|]; [discriminate| |]; cbn [handle].
  - destruct o.
    + apply Emits_bodyCallback.
    + apply Emits_muteCallback.
    + apply Emits_statusBarCallback.
    + exact (Emits_says _ _ _ (updateSidePanel_run env)).
    + apply Emits_sidePanelCallback.
    + unfold handCallback. apply Emits_bind;
        [exact (Emits_says _ _ _ (updateHandState_run env))|].
      intros _. apply Emits_nothing. reflexivity.
    + unfold ccCallback. apply Emits_bind;
        [exact (Emits_says _ _ _ (updateCCState_run env))|].
      intros _. apply Emits_nothing. reflexivity.
  - apply Emits_muteCallbackResumed.
Qed.

Lemma Emits_constructor : Emits Q (constructor env).
Proof.
  unfold constructor.
  apply Emits_bind; [apply Emits_nothing; reflexivity|]. intros _.
  apply Emits_if; [apply (Emits_enterRoom lobby)|].
  apply Emits_bind; [|intros _]; apply Emits_observe.
Qed.

End Mirror.

Lemma forallb_weaken {A : Type} (P Q : A -> bool) l :
  (forall x, P x = true -> Q x = true) ->
  forallb P l = true -> forallb Q l = true.
Proof.
  intros H. induction l as [|x l IH]; [reflexivity|]. cbn.
  intros Hl. apply andb_true_iff in Hl as [Hx Hl].
  rewrite (H x Hx), (IH Hl). reflexivity.
Qed.

(** X6. The constructor and every observer callback (and the resumption of
    the mute callback) only log the room, clear or fill keys of the device,
    or switch the lights off: none of them ever clicks on the page or
    switches the lights on. *)
Theorem observers_never_click_nor_light_on env :
  (forall s, forallb isMirror (calls (constructor env s)) = true) /\
  (forall ev s,
     isKeydown ev = false ->
     forallb isMirror (calls (handle env ev s)) = true).
Proof.
  assert (Hd : forall names, forallb isMirror (drawn env names) = true).
  { intros names. apply (forallb_weaken isFill); [|apply drawn_fills].
    intros [] H; try discriminate; reflexivity. }
  assert (Hr : forallb isMirror
                 (if isConnected (streamDeck env)
                  then [ClearAllButtons] else []) = true).
  { destruct (isConnected (streamDeck env)); reflexivity. }
  assert (Ho : forallb isMirror (autoOff env) = true).
  { unfold autoOff.
    destruct (hueLights env) as [h|]; [destruct (hueAuto h)|]; reflexivity. }
  split.
  - apply Emits_constructor; auto.
  - intros ev s Hev. apply Emits_mirror_handle; auto.
Qed.

Lemma observers_never_click_nor_light_on_witness :
  forallb isMirror
    (calls (handle Sample.handWorld Sample.nodeAdded
              (after (handle Sample.handWorld (mutation bodyObserver [])
                        (after (constructor Sample.handWorld fresh))))))
  = true.
Proof.
  exact (proj2 (observers_never_click_nor_light_on Sample.handWorld)
           Sample.nodeAdded _ eq_refl).
Defined.

(** X7. While the StreamDeck is not connected, nothing the class does
    calls it: the constructor and every handler, key presses included,
    make no clear and no fill request. *)
Theorem disconnected_device_is_never_called env :
  isConnected (streamDeck env) = false ->
  (forall s,
     forallb (fun e => negb (isDeviceCall e)) (calls (constructor env s))
     = true) /\
  (forall ev s,
     forallb (fun e => negb (isDeviceCall e)) (calls (handle env ev s))
     = true).
Proof.
  intros Hc.
  assert (Hd : forall names,
             forallb (fun e => negb (isDeviceCall e)) (drawn env names) = true).
  { intros names. rewrite drawn_disconnected by assumption. reflexivity. }
  assert (Hr : forallb (fun e => negb (isDeviceCall e))
                 (if isConnected (streamDeck env)
                  then [ClearAllButtons] else []) = true).
  { rewrite Hc. reflexivity. }
  assert (Ho : forallb (fun e => negb (isDeviceCall e)) (autoOff env) = true).
  { unfold autoOff.
    destruct (hueLights env) as [h|]; [destruct (hueAuto h)|]; reflexivity. }
  split.
  - apply Emits_constructor; auto.
  - intros ev s. destruct (isKeydown ev) eqn:Hev.
    + destruct ev as [buttonId| |]; try discriminate. cbn [handle].
      destruct (press_ends_in_leaf env buttonId s) as (m & Hin & ->).
      pose proof (pressLeaves_gentle env s) as HF.
      rewrite Forall_forall in HF. destruct (HF m Hin) as [_ Hq].
      revert Hq. apply forallb_weaken.
      intros [] H; try discriminate; reflexivity.
    + apply Emits_mirror_handle; auto.
Qed.

Lemma disconnected_device_is_never_called_witness :
  forallb (fun e => negb (isDeviceCall e))
    (calls (handle (Sample.world Sample.meetingPage false)
              (mutation bodyObserver []) fresh))
  = true.
Proof.
  exact (proj2 (disconnected_device_is_never_called
                  (Sample.world Sample.meetingPage false) eq_refl)
           (mutation bodyObserver []) fresh).
Defined.

(** ** The status-bar callback *)

Lemma handSetup_run env s :
  (if negb (handButtonReady s) && truthy (getHandButton env)
   then setupHandButton env else ret tt) s
  = mkRun (Normal tt) (afterHandSetupOf env s)
      (drawn env (if handButtonReady s then [] else handIcon env)).
Proof.
  unfold afterHandSetupOf, handIcon.
  destruct (getHandButton env) as [e|] eqn:He;
    destruct (handButtonReady s); cbn [negb andb truthy]; try reflexivity.
  rewrite (setupHandButton_run env e) by assumption.
  unfold handIcon. rewrite He. reflexivity.
Qed.

Lemma ccSetup_run env s :
  (if negb (ccButtonReady s) && truthy (getCCButton env)
   then setupCCButton env else ret tt) s
  = mkRun (Normal tt) (afterCCSetupOf env s)
      (drawn env (if ccButtonReady s then [] else ccIcon env)).
Proof.
  unfold afterCCSetupOf, ccIcon.
  destruct (getCCButton env) as [e|] eqn:He;
    destruct (ccButtonReady s); cbn [negb andb truthy]; try reflexivity.
  rewrite (setupCCButton_run env e) by assumption.
  unfold ccIcon. rewrite He. reflexivity.
Qed.

Lemma ccButtonReady_afterHandSetupOf env s :
  ccButtonReady (afterHandSetupOf env s) = ccButtonReady s.
Proof.
  unfold afterHandSetupOf.
  destruct (getHandButton env); [destruct (handButtonReady s)|]; reflexivity.
Qed.

Lemma watcherSetup_run env s :
  (s0 <- get ;;
   (if negb (handButtonReady s0) && truthy (getHandButton env)
    then setupHandButton env else ret tt) ;;
   s' <- get ;;
   (if negb (ccButtonReady s') && truthy (getCCButton env)
    then setupCCButton env else ret tt)) s
  = mkRun (Normal tt) (afterWatcherSetup env s)
      (drawn env (watcherSetupIcons env s)).
Proof.
  step. step_with handSetup_run. step. rewrite ccSetup_run.
  cbn [completion after calls app].
  rewrite ccButtonReady_afterHandSetupOf.
  unfold afterWatcherSetup, watcherSetupIcons. rewrite drawn_app.
  reflexivity.
Qed.

Lemma afterWatcherSetup_settled env s :
  afterWatcherSetup env (afterWatcherSetup env s) = afterWatcherSetup env s /\
  drawn env (watcherSetupIcons env (afterWatcherSetup env s)) = [].
Proof.
  unfold afterWatcherSetup, afterCCSetupOf, afterHandSetupOf,
    watcherSetupIcons, handIcon, ccIcon.
  destruct (getHandButton env) as [eh|]; destruct (getCCButton env) as [ec|];
    destruct (handButtonReady s) eqn:Hh; destruct (ccButtonReady s) eqn:Hc;
    cbn; rewrite ?Hh, ?Hc; cbn; rewrite ?Hh, ?Hc; split; reflexivity.
Qed.

Lemma statusBarCallback_run env records : forall s,
  statusBarCallback env records s =
  if existsb qualifies records
  then mkRun (Normal tt) (afterWatcherSetup env s)
         (drawn env (watcherSetupIcons env s))
  else mkRun (Normal tt) s [].
Proof.
  induction records as [|change rest IH]; intros s; [reflexivity|].
  cbn [statusBarCallback existsb].
  change (isChildList (recordType change)
          && (0 <? List.length (addedNodes change))%nat)
    with (qualifies change).
  destruct (qualifies change); cbn [orb].
  - step_with watcherSetup_run. rewrite IH.
    destruct (afterWatcherSetup_settled env s) as [Hs Hd].
    destruct (existsb qualifies rest); cbn [completion after calls].
    + rewrite Hs, Hd, app_nil_r. reflexivity.
    + rewrite app_nil_r. reflexivity.
  - step. rewrite IH.
    destruct (existsb qualifies rest); reflexivity.
Qed.

(** X8. The status-bar callback looks at the page only if some record of
    the batch is a child-list record with added nodes; otherwise, and on an
    empty batch, it does nothing.  When it looks, it runs each setup whose
    flag is down and whose button is on the page, once, however many
    records of the batch qualify: the flag goes up, one observation of the
    button is added and the button's icon is drawn once.  With both flags
    up it does nothing at all. *)
Theorem statusBarCallback_sets_up_once_per_batch env records s :
  statusBarCallback env records s =
    (if existsb qualifies records
     then mkRun (Normal tt) (afterWatcherSetup env s)
            (drawn env (watcherSetupIcons env s))
     else mkRun (Normal tt) s []) /\
  (handButtonReady s = true -> ccButtonReady s = true ->
     statusBarCallback env records s = mkRun (Normal tt) s []) /\
  (forall e, existsb qualifies records = true ->
     handButtonReady s = false -> getHandButton env = Some e ->
     handButtonReady (after (statusBarCallback env records s)) = true /\
     attached handObserver (after (statusBarCallback env records s))
     = S (attached handObserver s)).
Proof.
  rewrite statusBarCallback_run. split; [reflexivity|]. split.
  - intros Hh Hc. unfold afterWatcherSetup, afterCCSetupOf, afterHandSetupOf,
      watcherSetupIcons.
    rewrite Hh. destruct (getHandButton env); rewrite Hc;
      destruct (getCCButton env); destruct (existsb qualifies records);
      reflexivity.
  - intros e Hq Hh He. rewrite Hq. cbn [after].
    unfold afterWatcherSetup, afterCCSetupOf, afterHandSetupOf.
    rewrite He, Hh.
    destruct (getCCButton env) as [ec|]; cbn [ccButtonReady add_observation
      set_handButtonReady]; [destruct (ccButtonReady s)|];
      repeat rewrite ?attached_add_observation, ?attached_set_handButtonReady,
        ?attached_set_ccButtonReady;
      cbn; split; try reflexivity; lia.
Qed.

Lemma statusBarCallback_sets_up_once_per_batch_witness :
  let s := after (handle Sample.handWorld (mutation bodyObserver [])
                    (after (constructor Sample.handWorld fresh))) in
  let batch := [mkRecord mtAttributes []; mkRecord mtChildList [50];
                mkRecord mtChildList [51; 52]] in
  handButtonReady (after (statusBarCallback Sample.handWorld batch s)) = true /\
  attached handObserver (after (statusBarCallback Sample.handWorld batch s))
  = 1.
Proof.
  exact (proj2 (proj2 (statusBarCallback_sets_up_once_per_batch
                         Sample.handWorld
                         [mkRecord mtAttributes []; mkRecord mtChildList [50];
                          mkRecord mtChildList [51; 52]]
                         (after (handle Sample.handWorld
                                   (mutation bodyObserver [])
                                   (after (constructor Sample.handWorld
                                             fresh))))))
           (Sample.element 50 [] ["p2SYhf"; "SNTzF"] None)
           eq_refl eq_refl eq_refl).
Defined.

(** ** The mute observer *)

Lemma muteCallback_run env s :
  muteCallback env s =
  mkRun (Normal tt) (set_awaiting (awaiting s ++ [Fulfilled]) s)
    (drawn env (micIcon env)).
Proof.
  unfold muteCallback. step_with updateIsMicMuted_run. step.
  cbn. rewrite app_nil_r. reflexivity.
Qed.

Lemma muteCallbackResumed_run env s :
  muteCallbackResumed env s =
  match awaiting s with
  | [] => mkRun (Normal tt) s []
  | Fulfilled :: rest =>
      mkRun (Normal tt) (set_awaiting rest s) (drawn env (camIcon env))
  | Rejected _ :: rest => mkRun (Normal tt) (set_awaiting rest s) []
  end.
Proof.
  unfold muteCallbackResumed. step.
  destruct (awaiting s) as [|[|e] rest]; [reflexivity| |].
  - step. step_with updateIsCamMuted_run. cbn. rewrite app_nil_r.
    reflexivity.
  - step. reflexivity.
Qed.

Lemma awaiting_frame env ev s :
  isMuteEvent ev = false ->
  awaiting (after (handle env ev s)) = awaiting s.
Proof.
  intros Hev. destruct ev as [buttonId|o records|]; [| |discriminate];
    cbn [handle].
  - rewrite Silent_handleStreamDeckPress. reflexivity.
  - set (P := fun x : MeetWrapper => awaiting x = awaiting s).
    destruct o; try discriminate.
    + apply (kept_bodyCallback P); unfold P; try (intros; assumption).
      reflexivity.
    + apply (kept_statusBarCallback P); unfold P; try (intros; assumption).
      reflexivity.
    + unfold selectedPanelCallback. rewrite Silent_updateSidePanel.
      reflexivity.
    + apply (kept_sidePanelCallback P); unfold P; try (intros; assumption).
      reflexivity.
    + unfold handCallback.
      assert (H : Silent (updateHandState env;; ret tt)) by silent.
      rewrite H. reflexivity.
    + unfold ccCallback.
      assert (H : Silent (updateCCState env;; ret tt)) by silent.
      rewrite H. reflexivity.
Qed.

Lemma AllFulfilled_handle env ev s :
  AllFulfilled s -> AllFulfilled (after (handle env ev s)).
Proof.
  unfold AllFulfilled. intros H.
  destruct (isMuteEvent ev) eqn:Hev.
  - destruct ev as [|o records|]; try discriminate; cbn [handle].
    + destruct o; try discriminate. rewrite muteCallback_run. cbn.
      apply Forall_app. split; [exact H | repeat constructor].
    + rewrite muteCallbackResumed_run.
      destruct (awaiting s) as [|[|e] rest] eqn:Ha; cbn;
        [rewrite Ha; exact H | |]; inversion H; assumption.
  - rewrite awaiting_frame by assumption. exact H.
Qed.

Lemma AllFulfilled_constructor env : AllFulfilled (after (constructor env fresh)).
Proof.
  set (P := fun x : MeetWrapper => awaiting x = []).
  assert (H : P (after (constructor env fresh))).
  { apply (kept_constructor P); unfold P; try (intros; assumption).
    reflexivity. }
  unfold AllFulfilled. unfold P in H. rewrite H. constructor.
Qed.

Lemma AllFulfilled_Lives env0 s : Lives env0 s -> AllFulfilled s.
Proof.
  unfold Lives. induction 1 as [|env ev s Hs IH Hen].
  - apply AllFulfilled_constructor.
  - apply AllFulfilled_handle, IH.
Qed.

Lemma fulfilled_rotate (l : list Promise) :
  Forall (fun p => p = Fulfilled) l -> tl (l ++ [Fulfilled]) = l.
Proof.
  destruct l as [|p l]; [reflexivity|]. cbn. intros H.
  inversion H as [|? ? Hp Hl]; subst. clear H.
  induction l as [|q l IH]; [reflexivity|].
  inversion Hl as [|? ? Hq Hl']; subst. cbn. f_equal. apply IH, Hl'.
Qed.

(** X9. In every state of an instance the promises that suspended mute
    callbacks wait on are all fulfilled.  So a mute mutation followed by a
    resumption leaves the instance exactly as it was, having drawn the mic
    icon as the page read at the mutation and then the cam icon as the page
    reads at the resumption, whatever was still suspended before. *)
Theorem mute_mutation_then_resumption env0 s :
  Lives env0 s ->
  AllFulfilled s /\
  (forall env1 records env2,
     deliver [(env1, mutation muteObserver records); (env2, resumption)] s
     = (s, drawn env1 (micIcon env1) ++ drawn env2 (camIcon env2))).
Proof.
  intros HL. pose proof (AllFulfilled_Lives env0 s HL) as HA.
  split; [exact HA|]. intros env1 records env2.
  rewrite !deliver_cons. cbn [deliver fst snd handle].
  rewrite muteCallback_run. cbn [after calls].
  rewrite muteCallbackResumed_run. cbn [awaiting set_awaiting].
  pose proof (fulfilled_rotate (awaiting s) HA) as Hrot.
  unfold AllFulfilled in HA.
  destruct (awaiting s ++ [Fulfilled]) as [|p rest] eqn:E.
  - destruct (awaiting s); discriminate.
  - cbn [tl] in Hrot. subst rest.
    assert (Hp : p = Fulfilled).
    { destruct (awaiting s) as [|q l]; cbn in E; inversion E; subst.
      - reflexivity.
      - inversion HA; assumption. }
    subst p. cbn [after calls]. rewrite app_nil_r. f_equal.
    destruct s; reflexivity.
Qed.

Lemma mute_mutation_then_resumption_witness :
  let s := after (constructor Sample.handWorld fresh) in
  let env := Sample.world Sample.meetingPage true in
  deliver [(env, mutation muteObserver []); (env, resumption)] s
  = (s, [FillURL 10 "chrome-extension://meet/ico-svg/mic-disabled.svg" true]).
Proof.
  exact (proj2 (mute_mutation_then_resumption Sample.handWorld
                  (after (constructor Sample.handWorld fresh))
                  (reaches_start _))
           (Sample.world Sample.meetingPage true) []
           (Sample.world Sample.meetingPage true)).
Defined.

(** ** Building an instance off the landing page *)

Lemma press_in_no_room_is_noop env s buttonId :
  currentRoom s = None ->
  buttonId <> buttonNameToId (streamDeck env) "light-on" ->
  buttonId <> buttonNameToId (streamDeck env) "light-off" ->
  handleStreamDeckPress env buttonId s = mkRun (Normal tt) s [].
Proof.
  intros Hr Hon Hoff. unfold handleStreamDeckPress.
  apply Z.eqb_neq in Hon, Hoff. rewrite Hon, Hoff.
  step. rewrite Hr. reflexivity.
Qed.


(** X10. Built on a page whose path is not "/", the constructor makes no
    call at all: with a body it adds the key listener and observes the body
    with the body and mute observers, and without one it throws after
    adding the listener.  Either way the room stays undefined, so until the
    body observer first fires every key other than the two light keys does
    nothing. *)
Theorem constructor_off_landing env :
  (pathname env =? "/") = false ->
  constructor env fresh =
    match body (document env) with
    | Some b =>
        mkRun (Normal tt)
          (add_observation (mkObservation muteObserver (nodeId b) muteMutationOpts)
             (add_observation (mkObservation bodyObserver (nodeId b) bodyMOOpts)
                (add_keydownListener fresh)))
          []
    | None =>
        mkRun (Throw (TypeError "observe: parameter 1 is not of type Node"))
          (add_keydownListener fresh) []
    end /\
  currentRoom (after (constructor env fresh)) = None /\
  (forall env' buttonId,
     buttonId <> buttonNameToId (streamDeck env') "light-on" ->
     buttonId <> buttonNameToId (streamDeck env') "light-off" ->
     handleStreamDeckPress env' buttonId (after (constructor env fresh))
     = mkRun (Normal tt) (after (constructor env fresh)) []).
Proof.
  intros Hpath.
  assert (E : constructor env fresh =
              match body (document env) with
              | Some b =>
                  mkRun (Normal tt)
                    (add_observation
                       (mkObservation muteObserver (nodeId b) muteMutationOpts)
                       (add_observation
                          (mkObservation bodyObserver (nodeId b) bodyMOOpts)
                          (add_keydownListener fresh)))
                    []
              | None =>
                  mkRun
                    (Throw (TypeError "observe: parameter 1 is not of type Node"))
                    (add_keydownListener fresh) []
              end).
  { unfold constructor. step. rewrite Hpath. unfold observe.
    destruct (body (document env)) as [b|]; reflexivity. }
  split; [exact E|].
  assert (Hroom : currentRoom (after (constructor env fresh)) = None).
  { rewrite E. destruct (body (document env)); reflexivity. }
  split; [exact Hroom|].
  intros env' buttonId Hon Hoff.
  apply press_in_no_room_is_noop; assumption.
Qed.

Lemma constructor_off_landing_witness :
  constructor Sample.handWorld fresh =
  mkRun (Normal tt)
    (add_observation (mkObservation muteObserver 0 muteMutationOpts)
       (add_observation (mkObservation bodyObserver 0 bodyMOOpts)
          (add_keydownListener fresh)))
    [].
Proof.
  exact (proj1 (constructor_off_landing Sample.handWorld eq_refl)).
Defined.

(** ** A meeting entered on an incomplete page *)



(** ** Observers that pile up *)

(** X12. Unlike the hand and caption watchers, the status-bar and
    side-panel observers are attached anew at every transition into the
    meeting room: each transition on a page with the bottom bar and the
    side-panel container adds one observation of each, after those already
    in force, and removes none. *)
Theorem enterMeeting_attaches_two_observers_each_time env s sb sp :
  currentRoom s <> Some meeting ->
  getStatusBar env = Some sb ->
  querySelector (document env) "[jsname=o4MlPd]" = Some sp ->
  observing (after (enterMeeting env s)) =
    observing s
    ++ [ mkObservation statusBarObserver (nodeId sb) statusBarMOOpts;
         mkObservation sidePanelObserver (nodeId sp) sidePanelMOOpts ] /\
  attached statusBarObserver (after (enterMeeting env s))
  = S (attached statusBarObserver s) /\
  attached sidePanelObserver (after (enterMeeting env s))
  = S (attached sidePanelObserver s).
Proof.
  intros Hr Hsb Hsp.
  assert (Hroom : roomIs (currentRoom s) meeting = false).
  { destruct (roomIs (currentRoom s) meeting) eqn:E; [|reflexivity].
    apply roomIs_true in E. contradiction. }
  rewrite (enterMeeting_run env s sb sp) by assumption. cbn [after].
  split; [cbn; rewrite <- app_assoc; reflexivity|].
  rewrite !attached_add_observation. cbn [observer Observer_eqb].
  change (attached statusBarObserver (set_currentRoom meeting s))
    with (attached statusBarObserver s).
  change (attached sidePanelObserver (set_currentRoom meeting s))
    with (attached sidePanelObserver s).
  split; lia.
Qed.

Lemma enterMeeting_attaches_two_observers_each_time_witness :
  let env := Sample.world Sample.meetingPage true in
  let left := Sample.world
                (Sample.page [(".CRFCdf", Sample.element 60 [] [] None)])
                true in
  let s := fst (deliver (bodyMutations [env; left]) fresh) in
  attached statusBarObserver s = 1 /\
  attached statusBarObserver (after (enterMeeting env s)) = 2.
Proof.
  split; [reflexivity|].
  refine (proj1 (proj2 (enterMeeting_attaches_two_observers_each_time
                          (Sample.world Sample.meetingPage true) _
                          (Sample.element 2 [] [] None)
                          (Sample.element 3 [] [] None) _ eq_refl eq_refl))).
  vm_compute. discriminate.
Defined.

(** ** The side-panel watcher *)

(** X13. The side-panel callback never throws and leaves
    [#isSidePanelVisible] equal to whether the picker is on the page.  It
    draws the two tab icons exactly when that value changed, and it adds one
    observation of the picker by the selected-panel observer each time the
    picker appears, none when it disappears or stays. *)
Theorem sidePanelCallback_tracks_the_picker env s :
  let picker := querySelector (document env) "[jsname=I0Fcpe]" in
  let r := sidePanelCallback env s in
  completion r = Normal tt /\
  isSidePanelVisible (after r) = truthy picker /\
  calls r =
    (if Bool.eqb (isSidePanelVisible s) (truthy picker) then []
     else drawn env (sidePanelIcons env)) /\
  attached selectedPanelObserver (after r) =
    attached selectedPanelObserver s
    + (if negb (isSidePanelVisible s) && truthy picker then 1 else 0) /\
  forall o, o <> selectedPanelObserver ->
            attached o (after r) = attached o s.
Proof.
  cbv zeta. rewrite sidePanelCallback_run.
  destruct (querySelector (document env) "[jsname=I0Fcpe]") as [p|];
    destruct (isSidePanelVisible s) eqn:Hv;
    cbn [completion after calls truthy Bool.eqb negb andb];
    rewrite ?attached_add_observation; cbn [observer Observer_eqb];
    repeat split; try assumption; try reflexivity;
    try (change (attached selectedPanelObserver (set_isSidePanelVisible true s))
           with (attached selectedPanelObserver s); lia);
    try (change (attached selectedPanelObserver (set_isSidePanelVisible false s))
           with (attached selectedPanelObserver s); lia);
    try lia.
  intros o Ho. rewrite attached_add_observation. cbn [observer].
  rewrite Observer_eqb_neq by congruence.
  change (attached o (set_isSidePanelVisible true s)) with (attached o s). lia.
Qed.

(** ** Listeners and observers over the life of an instance *)

Lemma observing_grows env ev s :
  exists added, observing (after (handle env ev s)) = observing s ++ added.
Proof.
  apply (kept_handle (fun x => exists added, observing x = observing s ++ added)).
  - intros r x H. exact H.
  - intros b x H. exact H.
  - intros b x H. exact H.
  - intros l x H. exact H.
  - intros ob x _ _ [added H]. exists (added ++ [ob]). cbn.
    rewrite H, app_assoc. reflexivity.
  - intros e x _ [added H]. eexists. cbn. rewrite H, <- app_assoc.
    reflexivity.
  - intros e x _ [added H]. eexists. cbn. rewrite H, <- app_assoc.
    reflexivity.
  - exists []. rewrite app_nil_r. reflexivity.
Qed.

Lemma keydownListeners_handle env ev s :
  keydownListeners (after (handle env ev s)) = keydownListeners s.
Proof.
  apply (kept_handle (fun x => keydownListeners x = keydownListeners s));
    first [intros; assumption | reflexivity].
Qed.

Lemma keydownListeners_constructor env :
  keydownListeners (after (constructor env fresh)) = 1.
Proof.
  unfold constructor. rewrite after_bind. cbn [completion after modify].
  set (P := fun x : MeetWrapper => keydownListeners x = 1).
  assert (K : Keeps P
                (if pathname env =? "/" then enterLobby env
                 else
                   observe bodyObserver (body (document env)) bodyMOOpts;;
                   observe muteObserver (body (document env)) muteMutationOpts)).
  { apply Keeps_if.
    - apply (kept_enterRoom P ltac:(unfold P; intros; assumption)
               ltac:(unfold P; intros; assumption) env lobby).
    - apply Keeps_bind; [|intros _];
        apply (kept_observe P); unfold P; intros; first [assumption | discriminate]. }
  apply K. reflexivity.
Qed.

(** X14. Over the whole life of an instance there is exactly one key
    listener on the StreamDeck, so a key press can always be delivered, and
    no handler ever removes an observation: each event leaves the
    observations in force in place and at most adds some after them. *)
Theorem one_listener_and_observers_only_added env0 s :
  Lives env0 s ->
  keydownListeners s = 1 /\
  (forall buttonId, enabled s (keydown buttonId) = true) /\
  (forall env ev,
     keydownListeners (after (handle env ev s)) = 1 /\
     exists added,
       observing (after (handle env ev s)) = observing s ++ added).
Proof.
  intros HL.
  assert (H1 : keydownListeners s = 1).
  { unfold Lives in HL. induction HL as [|env ev s Hs IH Hen].
    - apply keydownListeners_constructor.
    - rewrite keydownListeners_handle. exact IH. }
  split; [exact H1|]. split.
  - intros buttonId. cbn [enabled]. rewrite H1. reflexivity.
  - intros env ev. split.
    + rewrite keydownListeners_handle. exact H1.
    + apply observing_grows.
Qed.

Lemma one_listener_and_observers_only_added_witness :
  keydownListeners Sample.afterHandSetup = 1 /\
  enabled Sample.afterHandSetup (keydown 12) = true.
Proof.
  assert (HL : Lives Sample.handWorld Sample.afterHandSetup).
  { unfold Lives, Sample.afterHandSetup.
    apply reaches_event; [apply reaches_event; [apply reaches_start|]|];
      reflexivity. }
  pose proof (one_listener_and_observers_only_added
                Sample.handWorld Sample.afterHandSetup HL) as (H1 & H2 & _).
  exact (conj H1 (H2 12%Z)).
Defined.

(** ** Who clears the device *)

Lemma clears_enterRoom env r s :
  clears (calls (enterRoom env r s)) <= 1 /\
  (currentRoom s = Some r -> clears (calls (enterRoom env r s)) = 0).
Proof.
  split.
  - destruct r; cbn [enterRoom];
      rewrite ?enterLobby_run, ?enterGreenRoom_run, ?enterExitHall_run;
      try (destruct (roomIs _ _); cbn [calls];
           [cbn; lia | rewrite clears_entry;
                       destruct (isConnected (streamDeck env)); lia]).
    destruct (roomIs (currentRoom s) meeting) eqn:Hroom.
    + apply roomIs_true in Hroom.
      rewrite enterMeeting_same_room by assumption. cbn. lia.
    + destruct (getStatusBar env) as [sb|] eqn:Hsb.
      * destruct (querySelector (document env) "[jsname=o4MlPd]")
          as [sp|] eqn:Hsp.
        -- rewrite (enterMeeting_run env s sb sp) by assumption.
           cbn [calls]. rewrite clears_entry.
           destruct (isConnected (streamDeck env)); lia.
        -- rewrite (enterMeeting_without_side_panel env s sb) by assumption.
           cbn. lia.
      * rewrite enterMeeting_without_status_bar by assumption. cbn. lia.
  - intros H. rewrite enterRoom_same_room by assumption. reflexivity.
Qed.

(** X15. Only a change of room clears the device.  No event makes more
    than one clear-all-buttons call; a key press, a feature watcher's
    callback or a resumption makes none; and the body observer's callback
    makes none when no marker is on the page or when the marker stands for
    the room the instance is in. *)
Theorem only_a_room_change_clears env ev s :
  clears (calls (handle env ev s)) <= 1 /\
  (isBodyMutation ev = false -> clears (calls (handle env ev s)) = 0) /\
  (classify (document env) = None -> clears (calls (handle env ev s)) = 0) /\
  (forall r, classify (document env) = Some r -> currentRoom s = Some r ->
     clears (calls (handle env ev s)) = 0).
Proof.
  assert (Hother : isBodyMutation ev = false ->
                   clears (calls (handle env ev s)) = 0).
  { intros Hev. destruct ev as [buttonId|o records|]; cbn [handle].
    - destruct (press_ends_in_leaf env buttonId s) as (m & Hin & ->).
      pose proof (pressLeaves_gentle env s) as HF.
      rewrite Forall_forall in HF. destruct (HF m Hin) as [_ Hq].
      unfold clears. induction (calls (m s)) as [|e l IH]; [reflexivity|].
      cbn in Hq. apply andb_true_iff in Hq as [He Hl].
      destruct e; try discriminate; cbn; auto.
    - destruct o; try discriminate.
      + rewrite muteCallback_run. apply clears_drawn.
      + rewrite statusBarCallback_run.
        destruct (existsb qualifies records); [apply clears_drawn|reflexivity].
      + unfold selectedPanelCallback. rewrite updateSidePanel_run.
        apply clears_drawn.
      + rewrite sidePanelCallback_run.
        destruct (querySelector (document env) "[jsname=I0Fcpe]");
          destruct (isSidePanelVisible s); cbn [calls];
          first [reflexivity | apply clears_drawn].
      + unfold handCallback. step_with updateHandState_run.
        cbn. rewrite app_nil_r. apply clears_drawn.
      + unfold ccCallback. step_with updateCCState_run.
        cbn. rewrite app_nil_r. apply clears_drawn.
    - rewrite muteCallbackResumed_run.
      destruct (awaiting s) as [|[|e] rest]; cbn [calls];
        first [reflexivity | apply clears_drawn]. }
  destruct (isBodyMutation ev) eqn:Hev.
  - destruct ev as [|o records|]; try discriminate.
    destruct o; try discriminate. cbn [handle].
    split; [|split; [discriminate|split]].
    + destruct (classify (document env)) as [r|] eqn:Hc.
      * rewrite bodyCallback_classified, Hc. unfold bind.
        pose proof (clears_enterRoom env r s) as [Hle _].
        destruct (completion (enterRoom env r s)); cbn [calls];
          [rewrite clears_app, clears_updateIsPresenting|]; lia.
      * rewrite bodyCallback_no_marker by assumption.
        rewrite clears_updateIsPresenting. lia.
    + intros Hc. rewrite bodyCallback_no_marker by assumption.
      apply clears_updateIsPresenting.
    + intros r Hc Hr. rewrite (bodyCallback_same_room env r) by assumption.
      apply clears_updateIsPresenting.
  - pose proof (Hother eq_refl) as H0.
    split; [lia|]. split; [auto|]. split; auto.
Qed.

Lemma only_a_room_change_clears_witness :
  let env := Sample.world Sample.meetingPage true in
  clears (calls (handle env Sample.nodeAdded (Sample.inRoom meeting))) = 0 /\
  clears (calls (handle env (mutation bodyObserver [])
                   (Sample.inRoom meeting))) = 0.
Proof.
  split.
  - exact (proj1 (proj2 (only_a_room_change_clears
                           (Sample.world Sample.meetingPage true)
                           Sample.nodeAdded (Sample.inRoom meeting)))
             eq_refl).
  - exact (proj2 (proj2 (proj2 (only_a_room_change_clears
                                  (Sample.world Sample.meetingPage true)
                                  (mutation bodyObserver [])
                                  (Sample.inRoom meeting))))
             meeting eq_refl eq_refl).
Defined.
